(** * Booking-confirmation notifications: a shallow embedding

    The development follows [backend/app/services/notifications.py]:
    [_format_datetime], [_build_booking_pdf], [_send_email_with_attachment]
    and the workflow [send_booking_confirmation_email].

    Conventions.
    - A Python [str] is a Rocq [string] holding its UTF-8 encoding.
    - A Python value read from the data store is a [pyval]; a [dict] is a
      finite map from keys to values.
    - An expression that may raise evaluates to a [result]; statements that
      talk to the outside world run in the monad [M] over a [world]. *)

From Stdlib Require Import ZArith String Ascii List SpecFloat.
From Stdlib Require Import DecimalString.
From stdpp Require Import base option gmap strings list.

Set Warnings "-register-all".
#[local] Open Scope string_scope.
#[local] Open Scope Z_scope.

(** ** Exceptions and results *)

Inductive exn_class :=
| AttributeError | TypeError | ValueError | OverflowError | RuntimeError
| ExternalError (name : string).

(** An instance of a subclass of [Exception]: what [except Exception]
    catches.  [exn_msg] is what [str(exc)] prints. *)
Record exn := Exn { exn_cls : exn_class; exn_msg : string }.

Inductive result (A : Type) :=
| Ok (a : A)
| Raise (e : exn).
Arguments Ok {A} a.
Arguments Raise {A} e.

Definition rbind {A B} (r : result A) (k : A -> result B) : result B :=
  match r with
  | Ok a => k a
  | Raise e => Raise e
  end.

Definition is_ok {A} (r : result A) : bool :=
  match r with Ok _ => true | Raise _ => false end.

Declare Scope result_scope.
Delimit Scope result_scope with result.
Notation "'let?' x ':=' r 'in' k" := (rbind r (fun x => k))
  (at level 10, x name, r at level 100, k at level 200) : result_scope.

(** ** Strings *)

Module Str.

Definition chr (n : N) : ascii := ascii_of_N n.
Definition ord (c : ascii) : N := N_of_ascii c.

(** The string ["\n"]. *)
Definition LF : string := String (chr 10) "".

Fixpoint join (sep : string) (l : list string) : string :=
  match l with
  | [] => ""
  | [x] => x
  | x :: rest => x +:+ sep +:+ join sep rest
  end.

Fixpoint startswith (p s : string) : bool :=
  match p, s with
  | EmptyString, _ => true
  | String a p', String b s' => Ascii.eqb a b && startswith p' s'
  | String _ _, EmptyString => false
  end.

(** [s.replace(old, new)] for a non-empty [old]: occurrences are replaced
    left to right and do not overlap; [skip] counts the characters of the
    occurrence just replaced that are still to be dropped. *)
Fixpoint replace_from (old new : string) (skip : nat) (s : string) : string :=
  match s with
  | EmptyString => ""
  | String c s' =>
      match skip with
      | S k => replace_from old new k s'
      | O =>
          if startswith old s
          then new +:+ replace_from old new (Nat.pred (String.length old)) s'
          else String c (replace_from old new O s')
      end
  end.

(** With an empty [old], Python inserts [new] before every character and
    at the end. *)
Fixpoint intersperse (new s : string) : string :=
  match s with
  | EmptyString => new
  | String c s' => new +:+ String c (intersperse new s')
  end.

Definition replace (old new s : string) : string :=
  match old with
  | EmptyString => intersperse new s
  | _ => replace_from old new O s
  end.


Definition is_break1 (c : ascii) : bool :=
  let n := ord c in
  N.eqb n 10 || N.eqb n 11 || N.eqb n 12 || N.eqb n 13
  || N.eqb n 28 || N.eqb n 29 || N.eqb n 30.

Definition is_crlf (c d : ascii) : bool := N.eqb (ord c) 13 && N.eqb (ord d) 10.

Definition is_nel (c d : ascii) : bool := N.eqb (ord c) 194 && N.eqb (ord d) 133.

Definition is_ls_ps (c d e : ascii) : bool :=
  N.eqb (ord c) 226 && N.eqb (ord d) 128 && (N.eqb (ord e) 168 || N.eqb (ord e) 169).

(** Puts [c] in front of the first line. *)
Definition cons_char (c : ascii) (ls : list string) : list string :=
  match ls with
  | [] => [String c ""]
  | l :: ls' => String c l :: ls'
  end.

(** [s.splitlines()]: the lines without their boundaries; a boundary at
    the very end opens no further line. *)
Fixpoint splitlines (s : string) : list string :=
  match s with
  | EmptyString => []
  | String c s1 =>
      match s1 with
      | String d s2 =>
          if is_crlf c d then "" :: splitlines s2
          else if is_nel c d then "" :: splitlines s2
          else
            match s2 with
            | String e s3 =>
                if is_ls_ps c d e then "" :: splitlines s3
                else if is_break1 c then "" :: splitlines s1
                else cons_char c (splitlines s1)
            | EmptyString =>
                if is_break1 c then "" :: splitlines s1
                else cons_char c (splitlines s1)
            end
      | EmptyString => if is_break1 c then [""] else [String c ""]
      end
  end.

(** A boundary of more than one byte starts at [c], followed by [s1]. *)
Definition wide_break (c : ascii) (s1 : string) : bool :=
  match s1 with
  | String d s2 =>
      is_crlf c d || is_nel c d
      || match s2 with
         | String e _ => is_ls_ps c d e
         | EmptyString => false
         end
  | EmptyString => false
  end.



(** ASCII case mapping; bytes of non-ASCII characters are left as they
    are. *)
Definition upper_char (c : ascii) : ascii :=
  let n := ord c in
  if N.leb 97 n && N.leb n 122 then chr (n - 32) else c.

Definition lower_char (c : ascii) : ascii :=
  let n := ord c in
  if N.leb 65 n && N.leb n 90 then chr (n + 32) else c.

Fixpoint lower (s : string) : string :=
  match s with
  | EmptyString => ""
  | String c s' => String (lower_char c) (lower s')
  end.

Definition capitalize (s : string) : string :=
  match s with
  | EmptyString => ""
  | String c s' => String (upper_char c) (lower s')
  end.

Definition of_Z (z : Z) : string := NilZero.string_of_int (Z.to_int z).

Fixpoint zeros (n : nat) : string :=
  match n with
  | O => ""
  | S k => String "0" (zeros k)
  end.

(** [%0wd] for a non-negative number. *)
Definition zfill (w : nat) (z : Z) : string :=
  let s := of_Z z in
  zeros (w - String.length s) +:+ s.

End Str.

(** ** Floating-point numbers

    A Python [float] is an IEEE 754 binary64 number, here a [spec_float]
    of precision 53 and maximal exponent 1024. *)

Module Float.

Definition prec : Z := 53.
Definition emax : Z := 1024.

Definition of_Z (z : Z) : spec_float := binary_normalize prec emax z 0 false.

(** The nearest binary64 number to [(-1)^sign * d * 10^e10]. *)
Definition of_decimal (sign : bool) (d : Z) (e10 : Z) : spec_float :=
  match d with
  | Zpos p =>
      if 0 <=? e10
      then binary_normalize prec emax
             (if sign then Z.opp (d * 10 ^ e10) else d * 10 ^ e10) 0 sign
      else
        match 10 ^ (- e10) with
        | Zpos q => SFdiv prec emax (S754_finite sign p 0) (S754_finite false q 0)
        | _ => S754_nan
        end
  | _ => S754_zero sign
  end.

Definition digit (c : ascii) : option Z :=
  let n := Z.of_N (Str.ord c) in
  if (48 <=? n) && (n <=? 57) then Some (n - 48) else None.

Definition is_digit (c : ascii) : bool :=
  match digit c with Some _ => true | None => false end.

(** Reads [digit (["_"] digit)*] on top of the value [acc]; returns the
    value, the number of digits read and the rest of the string. *)
Fixpoint digitpart (s : string) (acc : Z) (n : Z) : Z * Z * string :=
  match s with
  | EmptyString => (acc, n, s)
  | String c s' =>
      match digit c with
      | Some d => digitpart s' (10 * acc + d) (n + 1)
      | None =>
          if Ascii.eqb c "_" && (0 <? n)
          then match s' with
               | String c' _ => if is_digit c' then digitpart s' acc n else (acc, n, s)
               | EmptyString => (acc, n, s)
               end
          else (acc, n, s)
      end
  end.

Definition is_space (c : ascii) : bool :=
  let n := Str.ord c in
  (N.leb 9 n && N.leb n 13) || (N.leb 28 n && N.leb n 32).

Fixpoint lstrip (s : string) : string :=
  match s with
  | String c s' => if is_space c then lstrip s' else s
  | EmptyString => ""
  end.

Definition rev (s : string) : string :=
  string_of_list_ascii (List.rev (list_ascii_of_string s)).

Definition strip (s : string) : string := rev (lstrip (rev (lstrip s))).

Definition read_sign (s : string) : bool * string :=
  match s with
  | String "-" s' => (true, s')
  | String "+" s' => (false, s')
  | _ => (false, s)
  end.

Definition read_exponent (s : string) : option Z :=
  match s with
  | EmptyString => Some 0
  | String c s' =>
      if Ascii.eqb c "e" || Ascii.eqb c "E"
      then
        let '(neg, s'') := read_sign s' in
        match digitpart s'' 0 0 with
        | (v, n, EmptyString) =>
            if 0 <? n then Some (if neg then - v else v) else None
        | _ => None
        end
      else None
  end.

Definition read_number (sign : bool) (s : string) : option spec_float :=
  let '(ip, n1, r1) := digitpart s 0 0 in
  let '(m, n2, r2) :=
    match r1 with
    | String "." r => digitpart r ip 0
    | _ => (ip, 0, r1)
    end in
  if 0 <? n1 + n2
  then match read_exponent r2 with
       | Some e => Some (of_decimal sign m (e - n2))
       | None => None
       end
  else None.

(** [float(s)] for a string: surrounding white space, a sign, then
    [inf], [infinity], [nan] in any case or a decimal number. *)
Definition of_string (s : string) : option spec_float :=
  let '(sign, body) := read_sign (strip s) in
  let low := Str.lower body in
  if String.eqb low "inf" || String.eqb low "infinity" then Some (S754_infinity sign)
  else if String.eqb low "nan" then Some S754_nan
  else read_number sign body.

(** Nearest integer to [num / den], ties to even ([0 <= num], [0 < den]). *)
Definition round_half_even (num den : Z) : Z :=
  let q := num / den in
  let r := num mod den in
  match 2 * r ?= den with
  | Lt => q
  | Gt => q + 1
  | Eq => if Z.even q then q else q + 1
  end.

(** [format(x, ".2f")]. *)
Definition format_2f (x : spec_float) : string :=
  match x with
  | S754_nan => "nan"
  | S754_infinity s => if s then "-inf" else "inf"
  | S754_zero s => if s then "-0.00" else "0.00"
  | S754_finite s m e =>
      let n := if 0 <=? e then Zpos m * 100 * 2 ^ e
               else round_half_even (Zpos m * 100) (2 ^ (- e)) in
      (if s then "-" else "") +:+ Str.of_Z (n / 100) +:+ "." +:+ Str.zfill 2 (n mod 100)
  end.

Definition is_zero (x : spec_float) : bool :=
  match x with S754_zero _ => true | _ => false end.

Definition is_infinite (x : spec_float) : bool :=
  match x with S754_infinity _ => true | _ => false end.

End Float.

(** ** Python values *)

Inductive pyval :=
| VNone
| VBool (b : bool)
| VInt (z : Z)
| VFloat (x : spec_float)
| VStr (s : string)
| VList (l : list pyval)
| VDict (d : gmap string pyval).

Abbreviation dict := (gmap string pyval).

Module Py.

Definition type_name (v : pyval) : string :=
  match v with
  | VNone => "NoneType"
  | VBool _ => "bool"
  | VInt _ => "int"
  | VFloat _ => "float"
  | VStr _ => "str"
  | VList _ => "list"
  | VDict _ => "dict"
  end.

(** Truth value testing: [None], [False], zero, the empty string and
    empty containers are false. *)
Definition truthy (v : pyval) : bool :=
  match v with
  | VNone => false
  | VBool b => b
  | VInt z => negb (z =? 0)
  | VFloat x => negb (Float.is_zero x)
  | VStr s => negb (String.eqb s "")
  | VList l => match l with [] => false | _ => true end
  | VDict d => negb (bool_decide (d = ∅))
  end.

(** [a or b] *)
Definition or (a b : pyval) : pyval := if truthy a then a else b.

Definition no_attribute (v : pyval) (attr : string) : exn :=
  Exn AttributeError
      ("'" +:+ type_name v +:+ "' object has no attribute '" +:+ attr +:+ "'").

(** [d.get(key, default)] on a dict: the value under [key], also when it
    is [None], and [default] only when the key is absent. *)
Definition item (d : dict) (key : string) (default : pyval) : pyval :=
  match d !! key with
  | Some x => x
  | None => default
  end.

(** [v.get(key, default)]: only a dict has the method. *)
Definition get (v : pyval) (key : string) (default : pyval) : result pyval :=
  match v with
  | VDict d => Ok (item d key default)
  | _ => Raise (no_attribute v "get")
  end.

(** [v == "literal"] *)
Definition eq_str (v : pyval) (lit : string) : bool :=
  match v with
  | VStr s => String.eqb s lit
  | _ => false
  end.

(** [float(v)] *)
Definition float (v : pyval) : result spec_float :=
  match v with
  | VBool b => Ok (Float.of_Z (if b then 1 else 0))
  | VInt z =>
      let x := Float.of_Z z in
      if Float.is_infinite x
      then Raise (Exn OverflowError "int too large to convert to float")
      else Ok x
  | VFloat x => Ok x
  | VStr s =>
      match Float.of_string s with
      | Some x => Ok x
      | None => Raise (Exn ValueError "could not convert string to float")
      end
  | _ => Raise (Exn TypeError
                  ("float() argument must be a string or a real number, not '"
                   +:+ type_name v +:+ "'"))
  end.

(** [v.capitalize()]: a method of strings only. *)
Definition capitalize (v : pyval) : result string :=
  match v with
  | VStr s => Ok (Str.capitalize s)
  | _ => Raise (no_attribute v "capitalize")
  end.

(** [str(v)], as a replacement field [{v}] of an f-string prints it.
    Floats and containers print their [repr], which the runtime supplies. *)
Definition str (repr : pyval -> string) (v : pyval) : string :=
  match v with
  | VNone => "None"
  | VBool b => if b then "True" else "False"
  | VInt z => Str.of_Z z
  | VStr s => s
  | _ => repr v
  end.

End Py.

(** ** Dates and times *)

Record datetime := {
  year : Z; month : Z; day : Z;
  hour : Z; minute : Z; second : Z; microsecond : Z;
  (** offset from UTC in microseconds, for an aware value *)
  tzoffset : option Z
}.

Module DateTime.

Definition is_leap (y : Z) : bool :=
  (y mod 4 =? 0) && (negb (y mod 100 =? 0) || (y mod 400 =? 0)).

Definition days_in_month (y m : Z) : Z :=
  if m =? 2 then (if is_leap y then 29 else 28)
  else if (m =? 4) || (m =? 6) || (m =? 9) || (m =? 11) then 30
  else 31.

(** Reads exactly [n] decimal digits. *)
Fixpoint digits (n : nat) (s : string) (acc : Z) : option (Z * string) :=
  match n with
  | O => Some (acc, s)
  | S k =>
      match s with
      | String c s' =>
          match Float.digit c with
          | Some d => digits k s' (10 * acc + d)
          | None => None
          end
      | EmptyString => None
      end
  end.

Definition expect (c : ascii) (s : string) : option string :=
  match s with
  | String a s' => if Ascii.eqb a c then Some s' else None
  | EmptyString => None
  end.

(** [YYYY-MM-DD] *)
Definition parse_isoformat_date (s : string) : option (Z * Z * Z * string) :=
  '(y, s) ← digits 4 s 0;
  s ← expect "-" s;
  '(m, s) ← digits 2 s 0;
  s ← expect "-" s;
  '(d, s) ← digits 2 s 0;
  Some (y, m, d, s).

(** [.fff] or [.ffffff], up to the end of the string *)
Definition parse_fraction (s : string) : option Z :=
  s ← expect "." s;
  match String.length s with
  | 3%nat => '(f, _) ← digits 3 s 0; Some (f * 1000)
  | 6%nat => '(f, _) ← digits 6 s 0; Some f
  | _ => None
  end.

(** [HH[:MM[:SS[.fff[fff]]]]], up to the end of the string *)
Definition parse_hh_mm_ss_ff (s : string) : option (Z * Z * Z * Z) :=
  '(hh, s) ← digits 2 s 0;
  match s with
  | EmptyString => Some (hh, 0, 0, 0)
  | _ =>
      s ← expect ":" s;
      '(mm, s) ← digits 2 s 0;
      match s with
      | EmptyString => Some (hh, mm, 0, 0)
      | _ =>
          s ← expect ":" s;
          '(ss, s) ← digits 2 s 0;
          match s with
          | EmptyString => Some (hh, mm, ss, 0)
          | _ => ff ← parse_fraction s; Some (hh, mm, ss, ff)
          end
      end
  end.

(** Splits a time string at its first [+] or [-]: the time proper, and the
    sign ([true] for [-]) and digits of the offset when there is one. *)
Fixpoint split_offset (s : string) : string * option (bool * string) :=
  match s with
  | EmptyString => ("", None)
  | String c s' =>
      if Ascii.eqb c "+" then ("", Some (false, s'))
      else if Ascii.eqb c "-" then ("", Some (true, s'))
      else let '(t, o) := split_offset s' in (String c t, o)
  end.

Definition day_us : Z := 24 * 3600 * 1000000.

(** [+HH:MM], [+HH:MM:SS] or [+HH:MM:SS.ffffff]; the offset has to lie
    strictly between minus and plus 24 hours. *)
Definition parse_offset (neg : bool) (s : string) : option Z :=
  let n := String.length s in
  if Nat.eqb n 5 || Nat.eqb n 8 || Nat.eqb n 15
  then
    '(hh, mm, ss, ff) ← parse_hh_mm_ss_ff s;
    let us := ((hh * 3600 + mm * 60 + ss) * 1000000 + ff) in
    if us <? day_us then Some (if neg then - us else us) else None
  else None.

Definition parse_isoformat_time (s : string) : option (Z * Z * Z * Z * option Z) :=
  let '(t, o) := split_offset s in
  '(hh, mm, ss, ff) ← parse_hh_mm_ss_ff t;
  match o with
  | None => Some (hh, mm, ss, ff, None)
  | Some (neg, z) => off ← parse_offset neg z; Some (hh, mm, ss, ff, Some off)
  end.

(** Drops the separator, one character of one to four bytes. *)
Definition skip_char (s : string) : string :=
  match s with
  | EmptyString => ""
  | String c s' =>
      let n := Str.ord c in
      let k := if N.ltb n 128 then 0%nat
               else if N.eqb (N.land n 240) 224 then 2%nat
               else if N.eqb (N.land n 240) 240 then 3%nat
               else 1%nat in
      string_of_list_ascii (drop k (list_ascii_of_string s'))
  end.

(** The constructor's range checks. *)
Definition check_fields (dt : datetime) : bool :=
  (1 <=? year dt) && (year dt <=? 9999)
  && (1 <=? month dt) && (month dt <=? 12)
  && (1 <=? day dt) && (day dt <=? days_in_month (year dt) (month dt))
  && (hour dt <=? 23) && (minute dt <=? 59) && (second dt <=? 59).

(** [datetime.fromisoformat], for the format that [isoformat()] emits:
    [YYYY-MM-DD[*HH[:MM[:SS[.fff[fff]]]][+HH:MM[:SS[.ffffff]]]]], where [*]
    is any one character.  [None] stands for the [ValueError] raised on
    anything else. *)
Definition fromisoformat (s : string) : option datetime :=
  '(y, m, d, rest) ← parse_isoformat_date s;
  '(hh, mm, ss, ff, tz) ←
    match rest with
    | EmptyString => Some (0, 0, 0, 0, None)
    | _ => parse_isoformat_time (skip_char rest)
    end;
  let dt := {| year := y; month := m; day := d; hour := hh; minute := mm;
               second := ss; microsecond := ff; tzoffset := tz |} in
  if check_fields dt then Some dt else None.

Definition month_name (m : Z) : string :=
  nth (Z.to_nat (m - 1))
      ["January"; "February"; "March"; "April"; "May"; "June"; "July";
       "August"; "September"; "October"; "November"; "December"] "".

(** [%I]: the hour on a 12-hour clock *)
Definition hour12 (h : Z) : Z :=
  let r := h mod 12 in if r =? 0 then 12 else r.

(** [dt.strftime("%B %d, %Y %I:%M %p")] in the C locale; [%Y] is the year
    as the C library prints it, without padding. *)
Definition strftime_label (dt : datetime) : string :=
  month_name (month dt) +:+ " " +:+ Str.zfill 2 (day dt) +:+ ", "
  +:+ Str.of_Z (year dt) +:+ " " +:+ Str.zfill 2 (hour12 (hour dt)) +:+ ":"
  +:+ Str.zfill 2 (minute dt) +:+ " "
  +:+ (if hour dt <? 12 then "AM" else "PM").

End DateTime.

(** ** [_format_datetime] *)

(** [try: dt = datetime.fromisoformat(iso_str.replace("Z", "+00:00"));
    return dt.strftime(...)  except Exception: return iso_str].
    The argument is whatever [booking.get(...)] gave: a value that is not a
    string has no usable [replace], the call raises inside the [try] and the
    value comes back as it is. *)
Definition _format_datetime (iso_str : pyval) : pyval :=
  match iso_str with
  | VStr s =>
      match DateTime.fromisoformat (Str.replace "Z" "+00:00" s) with
      | Some dt => VStr (DateTime.strftime_label dt)
      | None => iso_str
      end
  | _ => iso_str
  end.

(** ** Collaborators: PDF library, email provider, data store *)

(** The calls made on an [FPDF] document, in order. *)
Inductive pdf_op :=
| AddPage
| SetFont (family style : string) (size : Z)
| Cell (w h : Z) (txt : string) (ln : Z)
| Ln (h : Z)
| MultiCell (w h : Z) (txt : string).

Record attachment := {
  filename : string;
  content : string;
  encoding : string
}.

(** The request handed to [resend.Emails.send]. *)
Record email := {
  from : option string;
  to : list pyval;
  subject : string;
  text : string;
  html : string;
  attachments : option (list attachment)
}.

Inductive event :=
| GetBooking (booking_id : string)
| GetPayment (booking_id : string)
| GetUserProfile (user_id : pyval)
| Print (msg : string)
| Send (api_key : option string) (req : email) (raised : option exn)
| UpdatePaymentStatus (booking_id : string)
    (payment_status transaction_id receipt_url : pyval) (raised : option exn).

(** The data store and the record of what the process did so far. *)
Record world := {
  bookings : gmap string dict;
  payments : gmap string dict;
  profiles : gmap string dict;
  history : list event
}.

Record settings := {
  RESEND_API_KEY : option string;
  RESEND_FROM : option string
}.

(** What the module finds around it: configuration, the two import flags,
    the libraries and the runtime's [repr].  The provider and a store
    update may fail, depending on anything that happened before. *)
Record env := {
  get_settings : settings;
  PDF_ENABLED : bool;
  RESEND_AVAILABLE : bool;
  (** [pdf.output(dest="S").encode("latin-1")] *)
  fpdf_output : list pdf_op -> result string;
  (** [resend.Emails.send] under [resend.api_key]: the exception raised,
      if any *)
  resend_send : world -> option string -> email -> option exn;
  (** the exception raised by [update_payment_status], if any *)
  update_fault : world -> string -> pyval -> pyval -> pyval -> option exn;
  py_repr : pyval -> string
}.

(** Truth value of an optional setting. *)
Definition is_set (o : option string) : bool :=
  match o with
  | Some s => negb (String.eqb s "")
  | None => false
  end.

(** ** The monad of the workflow: state and exceptions *)

Definition M (A : Type) : Type := world -> result A * world.

Definition ret {A} (a : A) : M A := fun w => (Ok a, w).

Definition bind {A B} (m : M A) (k : A -> M B) : M B :=
  fun w =>
    match m w with
    | (Ok a, w') => k a w'
    | (Raise e, w') => (Raise e, w')
    end.

Definition lift {A} (r : result A) : M A := fun w => (r, w).

(** [try: m  except Exception as exc: ...] hands the outcome of [m] over
    as a value. *)
Definition try_ {A} (m : M A) : M (result A) :=
  fun w => let '(r, w') := m w in (Ok r, w').

(** The world after the events [evs] were recorded. *)
Definition extend (w : world) (evs : list event) : world :=
  {| bookings := bookings w; payments := payments w;
     profiles := profiles w; history := (history w ++ evs)%list |}.

Definition emit (ev : event) : M unit := fun w => (Ok tt, extend w [ev]).

Definition print (msg : string) : M unit := emit (Print msg).

Declare Scope M_scope.
Delimit Scope M_scope with M.
Notation "x <- m ;; k" := (bind m (fun x => k))
  (at level 100, m at next level, right associativity) : M_scope.
Notation "m ;; k" := (bind m (fun _ => k))
  (at level 100, right associativity) : M_scope.

Module Supabase.

Definition row (o : option dict) : pyval :=
  match o with
  | Some d => VDict d
  | None => VNone
  end.

(** Modelled from the spec: the data store client [app.services.supabase]
    is not part of the sources.  [get_booking_by_id(id) -> Booking|null]. *)
Definition get_booking_by_id (booking_id : string) : M pyval :=
  fun w => (emit (GetBooking booking_id) ;; ret (row (bookings w !! booking_id)))%M w.

(** Modelled from the spec: [get_payment_by_booking(bookingId) ->
    Payment|null]. *)
Definition get_payment_by_booking (booking_id : string) : M pyval :=
  fun w => (emit (GetPayment booking_id) ;; ret (row (payments w !! booking_id)))%M w.

(** Modelled from the spec: [get_user_profile(userId) -> UserProfile|null];
    an identifier that is not a string names no profile. *)
Definition get_user_profile (user_id : pyval) : M pyval :=
  fun w =>
    (emit (GetUserProfile user_id) ;;
     ret (match user_id with
          | VStr u => row (profiles w !! u)
          | _ => VNone
          end))%M w.

Definition set_payment (booking_id : string) (payment_status transaction_id receipt_url : pyval)
    (w : world) : world :=
  {| bookings := bookings w;
     payments :=
       match payments w !! booking_id with
       | Some p =>
           <[booking_id :=
               <["receipt_url" := receipt_url]>
                 (<["transaction_id" := transaction_id]>
                    (<["payment_status" := payment_status]> p))]> (payments w)
       | None => payments w
       end;
     profiles := profiles w;
     history := history w |}.

(** Modelled from the spec: [update_payment_status(bookingId, paymentStatus,
    transactionId, receiptUrl) -> void] writes the three fields to the
    booking's payment row, or raises and writes nothing. *)
Definition update_payment_status (E : env) (booking_id : string)
    (payment_status transaction_id receipt_url : pyval) : M unit :=
  fun w =>
    let raised := update_fault E w booking_id payment_status transaction_id receipt_url in
    let ev := UpdatePaymentStatus booking_id payment_status transaction_id receipt_url raised in
    match raised with
    | Some e => (emit ev ;; lift (Raise e))%M w
    | None =>
        (emit ev ;; ret tt)%M
          (set_payment booking_id payment_status transaction_id receipt_url w)
    end.

End Supabase.

(** ** [base64.b64encode] *)

Module Base64.

Definition alphabet : string :=
  "ABCDEFGHIJKLMNOPQRSTUVWXYZabcdefghijklmnopqrstuvwxyz0123456789+/".

Definition sextet (n : N) : ascii :=
  match String.get (N.to_nat (N.land n 63)) alphabet with
  | Some c => c
  | None => "="%char
  end.

Fixpoint encode_bytes (l : list ascii) : string :=
  match l with
  | [] => ""
  | [a] =>
      let n := N.shiftl (Str.ord a) 16 in
      String (sextet (N.shiftr n 18)) (String (sextet (N.shiftr n 12)) "==")
  | [a; b] =>
      let n := N.lor (N.shiftl (Str.ord a) 16) (N.shiftl (Str.ord b) 8) in
      String (sextet (N.shiftr n 18))
        (String (sextet (N.shiftr n 12)) (String (sextet (N.shiftr n 6)) "="))
  | a :: b :: c :: rest =>
      let n := N.lor (N.lor (N.shiftl (Str.ord a) 16) (N.shiftl (Str.ord b) 8)) (Str.ord c) in
      String (sextet (N.shiftr n 18))
        (String (sextet (N.shiftr n 12))
           (String (sextet (N.shiftr n 6)) (String (sextet n) (encode_bytes rest))))
  end.

Definition b64encode (bytes : string) : string :=
  encode_bytes (list_ascii_of_string bytes).

End Base64.

(** ** Text of the confirmation *)

Section Content.

Context (E : env).

Let fmt (v : pyval) : string := Py.str (py_repr E) v.

#[local] Open Scope result_scope.

(** [RM{float(booking.get('total_amount', 0) or 0):.2f}], lines 59 and
    167. *)
Definition amount_text (booking : pyval) : result string :=
  let? total := Py.get booking "total_amount" (VInt 0) in
  let? x := Py.float (Py.or total (VInt 0)) in
  Ok ("RM" +:+ Float.format_2f x).

(** The list [summary_lines] of [_build_booking_pdf], lines 50 to 61. *)
Definition summary_lines (booking user_profile space : pyval) : result (list string) :=
  let? id := Py.get booking "id" (VStr "") in
  let? full_name := Py.get user_profile "full_name" VNone in
  let? guest :=
    if Py.truthy full_name then Ok full_name
    else let? e := Py.get user_profile "email" VNone in Ok (Py.or e (VStr "Guest")) in
  let? email_line :=
    if Py.truthy user_profile
    then let? e := Py.get user_profile "email" (VStr "") in Ok ("Email: " +:+ fmt e)
    else Ok "" in
  let? name := Py.get space "name" (VStr "") in
  let? location := Py.get space "location" (VStr "") in
  let? start_time := Py.get booking "start_time" (VStr "") in
  let? end_time := Py.get booking "end_time" (VStr "") in
  let? attendees := Py.get booking "attendees_count" (VStr "") in
  let? amount := amount_text booking in
  let? status := Py.get booking "status" (VStr "") in
  let? status := Py.capitalize status in
  Ok [ "Booking ID: " +:+ fmt id;
       "Guest: " +:+ fmt guest;
       email_line;
       "Space: " +:+ fmt name;
       "Location: " +:+ fmt (Py.or location (VStr "Kuala Lumpur"));
       "Date: " +:+ fmt (_format_datetime start_time);
       "End: " +:+ fmt (_format_datetime end_time);
       "Attendees: " +:+ fmt attendees;
       "Total Paid: " +:+ amount;
       "Status: " +:+ (if String.eqb status "" then "Confirmed" else status) ].

(** [for line in summary_lines: if not line: continue;
    pdf.multi_cell(0, 8, line)] *)
Fixpoint write_lines (pdf : list pdf_op) (lines : list string) : list pdf_op :=
  match lines with
  | [] => pdf
  | line :: rest =>
      if String.eqb line "" then write_lines pdf rest
      else write_lines (pdf ++ [MultiCell 0 8 line])%list rest
  end.

Definition thank_you : string :=
  "Thank you for choosing Infinity8. Please present this confirmation upon arrival.".

(** The document [_build_booking_pdf] draws before it asks for the bytes. *)
Definition booking_pdf (lines : list string) : list pdf_op :=
  let pdf := [AddPage; SetFont "Helvetica" "B" 16;
              Cell 0 12 "Booking Confirmation" 1; SetFont "Helvetica" "" 11] in
  let pdf := (pdf ++ [Ln 4])%list in
  let pdf := write_lines pdf lines in
  (pdf ++ [Ln 6; SetFont "Helvetica" "" 10; MultiCell 0 6 thank_you])%list.

Definition _build_booking_pdf (booking user_profile : pyval) : result (option string) :=
  if negb (PDF_ENABLED E) then Ok None
  else
    let? spaces := Py.get booking "spaces" VNone in
    let space := Py.or spaces (VDict ∅) in
    let? lines := summary_lines booking user_profile space in
    let? bytes := fpdf_output E (booking_pdf lines) in
    Ok (Some bytes).

(** The list [body_lines] of the workflow, lines 158 to 172. *)
Definition body_lines (booking user_profile space date_label : pyval) : result (list string) :=
  let? full_name := Py.get user_profile "full_name" VNone in
  let? name := Py.get space "name" (VStr "") in
  let? location := Py.get space "location" (VStr "") in
  let? end_time := Py.get booking "end_time" (VStr "") in
  let? attendees := Py.get booking "attendees_count" (VStr "") in
  let? amount := amount_text booking in
  Ok [ "Hi " +:+ fmt (Py.or full_name (VStr "there")) +:+ ",";
       "";
       "Your booking is confirmed. Details:";
       "- Space: " +:+ fmt name;
       "- Location: " +:+ fmt (Py.or location (VStr "Kuala Lumpur"));
       "- Starts: " +:+ fmt date_label;
       "- Ends: " +:+ fmt (_format_datetime end_time);
       "- Attendees: " +:+ fmt attendees;
       "- Amount: " +:+ amount;
       "";
       "The confirmation PDF is attached. We look forward to hosting you!";
       "";
       "-- Infinity8 Team" ].

(** [f"Booking confirmed: {space.get('name', 'Your space')} on {date_label}"] *)
Definition subject_line (space date_label : pyval) : result string :=
  let? name := Py.get space "name" (VStr "Your space") in
  Ok ("Booking confirmed: " +:+ fmt name +:+ " on " +:+ fmt date_label).

End Content.

(** ** [_send_email_with_attachment] *)

Definition resend_emails_send (E : env) (api_key : option string) (req : email) : M unit :=
  fun w =>
    let raised := resend_send E w api_key req in
    match raised with
    | Some e => (emit (Send api_key req raised) ;; lift (Raise e))%M w
    | None => emit (Send api_key req raised) w
    end.

Definition _send_email_with_attachment (E : env) (to_email : pyval)
    (subject body : string) (attachment : option string) (attachment_name : string)
    : M unit :=
  let settings := get_settings E in
  if negb (is_set (RESEND_API_KEY settings) && is_set (RESEND_FROM settings))
  then lift (Raise (Exn RuntimeError "Resend configuration is missing; cannot send email."))
  else if negb (RESEND_AVAILABLE E)
  then lift (Raise (Exn RuntimeError "Resend SDK not installed; cannot send email."))
  else
    let attachments :=
      match attachment with
      | Some bytes =>
          if String.eqb bytes "" then []
          else [ {| filename := attachment_name;
                    content := Base64.b64encode bytes;
                    encoding := "base64" |} ]
      | None => []
      end in
    let html_body := Str.join "<br>" (Str.splitlines body) in
    resend_emails_send E (RESEND_API_KEY settings)
      {| from := RESEND_FROM settings;
         to := [to_email];
         subject := subject;
         text := body;
         html := html_body;
         attachments := match attachments with [] => None | _ => Some attachments end |}.

(** ** [send_booking_confirmation_email] *)

Definition of_optional (o : option string) : pyval :=
  match o with
  | Some s => VStr s
  | None => VNone
  end.

(** Lines 192 to 201: the update of the payment row and its handler. *)
Definition mark_sent (E : env) (booking_id : string) (payment : pyval) : M unit :=
  (if Py.truthy payment then
     r <- try_ (payment_status <- lift (Py.get payment "payment_status" (VStr "completed")) ;;
                transaction_id <- lift (Py.get payment "transaction_id" VNone) ;;
                receipt_url <- lift (Py.get payment "receipt_url" VNone) ;;
                Supabase.update_payment_status E booking_id payment_status transaction_id
                  (Py.or receipt_url (VStr "email_sent"))) ;;
     match r with
     | Raise exc =>
         print ("Warning: could not mark confirmation email as sent ("
                +:+ booking_id +:+ "): " +:+ exn_msg exc)
     | Ok _ => ret tt
     end
   else ret tt)%M.

Definition send_booking_confirmation_email (E : env) (booking_id : string)
    (fallback_email : option string) : M unit :=
  (let settings := get_settings E in
   if negb (is_set (RESEND_API_KEY settings)) || negb (is_set (RESEND_FROM settings))
   then print "Resend not configured; skipping booking confirmation email."
   else if negb (RESEND_AVAILABLE E)
   then print "Resend SDK not installed; skipping booking confirmation email."
   else
     booking <- Supabase.get_booking_by_id booking_id ;;
     if negb (Py.truthy booking)
     then print ("Booking " +:+ booking_id +:+ " not found; cannot send confirmation email.")
     else
       payment <- Supabase.get_payment_by_booking booking_id ;;
       already <- lift (if Py.truthy payment
                        then rbind (Py.get payment "receipt_url" VNone)
                               (fun r => Ok (Py.eq_str r "email_sent"))
                        else Ok false) ;;
       if already then ret tt
       else
         user_id <- lift (Py.get booking "user_id" (VStr "")) ;;
         user_profile <- Supabase.get_user_profile user_id ;;
         profile_email <- lift (Py.get (Py.or user_profile (VDict ∅)) "email" VNone) ;;
         let recipient := Py.or profile_email (of_optional fallback_email) in
         if negb (Py.truthy recipient)
         then print ("No email available for booking " +:+ booking_id +:+ "; skipping send.")
         else
           spaces <- lift (Py.get booking "spaces" VNone) ;;
           let space := Py.or spaces (VDict ∅) in
           start_time <- lift (Py.get booking "start_time" (VStr "")) ;;
           let date_label := _format_datetime start_time in
           subject <- lift (subject_line E space date_label) ;;
           lines <- lift (body_lines E booking user_profile space date_label) ;;
           let body := Str.join Str.LF lines in
           pdf_bytes <- lift (_build_booking_pdf E booking (Py.or user_profile (VDict ∅))) ;;
           let attachment_name := "booking-" +:+ booking_id +:+ ".pdf" in
           sent <- try_ (_send_email_with_attachment E recipient subject body
                           pdf_bytes attachment_name) ;;
           match sent with
           | Raise exc =>
               print ("Failed to send booking confirmation email for "
                      +:+ booking_id +:+ ": " +:+ exn_msg exc)
           | Ok _ => mark_sent E booking_id payment
           end)%M.

(** * Reading a run *)

Definition is_send (ev : event) : bool :=
  match ev with Send _ _ _ => true | _ => false end.

Definition is_delivery (ev : event) : bool :=
  match ev with Send _ _ None => true | _ => false end.

Definition is_update (ev : event) : bool :=
  match ev with UpdatePaymentStatus _ _ _ _ _ => true | _ => false end.

(** Number of events of one kind. *)
Definition count (p : event -> bool) (evs : list event) : nat :=
  length (List.filter p evs).

Definition configured (E : env) : bool :=
  is_set (RESEND_API_KEY (get_settings E)) && is_set (RESEND_FROM (get_settings E))
  && RESEND_AVAILABLE E.

(** Same rows in the three tables. *)
Definition same_store (w w' : world) : Prop :=
  bookings w' = bookings w /\ payments w' = payments w /\ profiles w' = profiles w.

(** Events of [w'] that [w] does not have yet. *)
Definition events_since (w w' : world) : list event :=
  drop (length (history w)) (history w').

(** ** The runs of the workflow

    [outcome] lists the ways one invocation can end, with the events it
    records; [run_outcome] below shows that every run is one of them. *)

Section Runs.

Context (E : env) (booking_id : string) (fallback_email : option string).

(** The idempotency check of lines 143 to 146. *)
Definition already_sent (w : world) : bool :=
  match payments w !! booking_id with
  | Some p => Py.truthy (VDict p) && Py.eq_str (Py.item p "receipt_url" VNone) "email_sent"
  | None => false
  end.

(** The argument and the result of [get_user_profile], line 148. *)
Definition user_id_of (b : dict) : pyval := Py.item b "user_id" (VStr "").

Definition profile_of (w : world) (b : dict) : pyval :=
  match user_id_of b with
  | VStr u => Supabase.row (profiles w !! u)
  | _ => VNone
  end.

(** Line 149. *)
Definition recipient_of (w : world) (b : dict) : pyval :=
  Py.or (match Py.or (profile_of w b) (VDict ∅) with
         | VDict d => Py.item d "email" VNone
         | _ => VNone
         end)
        (of_optional fallback_email).

(** Lines 154 to 175: subject, body and attachment. *)
Definition email_content (booking user_profile : pyval) : result (string * string * option string) :=
  (let? spaces := Py.get booking "spaces" VNone in
   let space := Py.or spaces (VDict ∅) in
   let? start_time := Py.get booking "start_time" (VStr "") in
   let date_label := _format_datetime start_time in
   let? subject := subject_line E space date_label in
   let? lines := body_lines E booking user_profile space date_label in
   let? pdf_bytes := _build_booking_pdf E booking (Py.or user_profile (VDict ∅)) in
   Ok (subject, Str.join Str.LF lines, pdf_bytes))%result.

(** The request of lines 96 to 116. *)
Definition request (to_email : pyval) (subject body : string) (attachment : option string)
    : email :=
  let attachments :=
    match attachment with
    | Some bytes =>
        if String.eqb bytes "" then []
        else [ {| filename := "booking-" +:+ booking_id +:+ ".pdf";
                  content := Base64.b64encode bytes;
                  encoding := "base64" |} ]
    | None => []
    end in
  {| from := RESEND_FROM (get_settings E);
     to := [to_email];
     subject := subject;
     text := body;
     html := Str.join "<br>" (Str.splitlines body);
     attachments := match attachments with [] => None | _ => Some attachments end |}.

Definition lookups (b : dict) : list event :=
  [GetBooking booking_id; GetPayment booking_id; GetUserProfile (user_id_of b)].

(** The arguments of [update_payment_status], lines 196 to 198. *)
Definition mark_status (p : dict) : pyval := Py.item p "payment_status" (VStr "completed").
Definition mark_transaction (p : dict) : pyval := Py.item p "transaction_id" VNone.
Definition mark_receipt (p : dict) : pyval :=
  Py.or (Py.item p "receipt_url" VNone) (VStr "email_sent").

Inductive outcome (w : world) : result unit -> world -> Prop :=
| Unconfigured msg :
    configured E = false ->
    outcome w (Ok tt) (extend w [Print msg])
| BookingNotFound :
    configured E = true ->
    Py.truthy (Supabase.row (bookings w !! booking_id)) = false ->
    outcome w (Ok tt)
      (extend w [GetBooking booking_id;
                 Print ("Booking " +:+ booking_id
                        +:+ " not found; cannot send confirmation email.")])
| AlreadySent b :
    configured E = true ->
    bookings w !! booking_id = Some b ->
    already_sent w = true ->
    outcome w (Ok tt) (extend w [GetBooking booking_id; GetPayment booking_id])
| NoRecipient b :
    configured E = true ->
    bookings w !! booking_id = Some b ->
    already_sent w = false ->
    Py.truthy (recipient_of w b) = false ->
    outcome w (Ok tt)
      (extend w (lookups b ++
                 [Print ("No email available for booking " +:+ booking_id
                         +:+ "; skipping send.")]))
| ContentRaised b e :
    configured E = true ->
    bookings w !! booking_id = Some b ->
    already_sent w = false ->
    Py.truthy (recipient_of w b) = true ->
    email_content (VDict b) (profile_of w b) = Raise e ->
    outcome w (Raise e) (extend w (lookups b))
| SendRaised b subject body pdf e :
    let req := request (recipient_of w b) subject body pdf in
    let key := RESEND_API_KEY (get_settings E) in
    configured E = true ->
    bookings w !! booking_id = Some b ->
    already_sent w = false ->
    Py.truthy (recipient_of w b) = true ->
    email_content (VDict b) (profile_of w b) = Ok (subject, body, pdf) ->
    resend_send E (extend w (lookups b)) key req = Some e ->
    outcome w (Ok tt)
      (extend w (lookups b ++
                 [Send key req (Some e);
                  Print ("Failed to send booking confirmation email for "
                         +:+ booking_id +:+ ": " +:+ exn_msg e)]))
| SentUnmarked b subject body pdf :
    let req := request (recipient_of w b) subject body pdf in
    let key := RESEND_API_KEY (get_settings E) in
    configured E = true ->
    bookings w !! booking_id = Some b ->
    Py.truthy (Supabase.row (payments w !! booking_id)) = false ->
    Py.truthy (recipient_of w b) = true ->
    email_content (VDict b) (profile_of w b) = Ok (subject, body, pdf) ->
    resend_send E (extend w (lookups b)) key req = None ->
    outcome w (Ok tt) (extend w (lookups b ++ [Send key req None]))
| SentMarked b p subject body pdf :
    let req := request (recipient_of w b) subject body pdf in
    let key := RESEND_API_KEY (get_settings E) in
    configured E = true ->
    bookings w !! booking_id = Some b ->
    payments w !! booking_id = Some p ->
    Py.truthy (VDict p) = true ->
    already_sent w = false ->
    Py.truthy (recipient_of w b) = true ->
    email_content (VDict b) (profile_of w b) = Ok (subject, body, pdf) ->
    resend_send E (extend w (lookups b)) key req = None ->
    update_fault E (extend w (lookups b ++ [Send key req None])) booking_id
      (mark_status p) (mark_transaction p) (mark_receipt p) = None ->
    outcome w (Ok tt)
      (extend (Supabase.set_payment booking_id (mark_status p) (mark_transaction p)
                 (mark_receipt p) w)
         (lookups b ++
          [Send key req None;
           UpdatePaymentStatus booking_id (mark_status p) (mark_transaction p)
             (mark_receipt p) None]))
| SentMarkFailed b p subject body pdf e :
    let req := request (recipient_of w b) subject body pdf in
    let key := RESEND_API_KEY (get_settings E) in
    configured E = true ->
    bookings w !! booking_id = Some b ->
    payments w !! booking_id = Some p ->
    Py.truthy (VDict p) = true ->
    already_sent w = false ->
    Py.truthy (recipient_of w b) = true ->
    email_content (VDict b) (profile_of w b) = Ok (subject, body, pdf) ->
    resend_send E (extend w (lookups b)) key req = None ->
    update_fault E (extend w (lookups b ++ [Send key req None])) booking_id
      (mark_status p) (mark_transaction p) (mark_receipt p) = Some e ->
    outcome w (Ok tt)
      (extend w
         (lookups b ++
          [Send key req None;
           UpdatePaymentStatus booking_id (mark_status p) (mark_transaction p)
             (mark_receipt p) (Some e);
           Print ("Warning: could not mark confirmation email as sent ("
                  +:+ booking_id +:+ "): " +:+ exn_msg e)])).

End Runs.

Definition holds_for (P : result unit -> world -> Prop) (x : result unit * world) : Prop :=
  P x.1 x.2.

(** Invocations for one booking, one after the other, each with its own
    fallback address; an exception ends an invocation, not the sequence. *)
Fixpoint invoke_all (E : env) (id : string) (fbs : list (option string)) (w : world)
    : world :=
  match fbs with
  | [] => w
  | fb :: rest => invoke_all E id rest (send_booking_confirmation_email E id fb w).2
  end.

(** The world is the one a delivery left behind whose update of a payment
    row without receipt URL went through. *)
Definition just_marked (E : env) (id : string) (w : world) : Prop :=
  exists w0 fb r p key req st tx url,
    send_booking_confirmation_email E id fb w0 = (r, w)
    /\ payments w0 !! id = Some p
    /\ Py.truthy (Py.item p "receipt_url" VNone) = false
    /\ In (Send key req None) (events_since w0 w)
    /\ In (UpdatePaymentStatus id st tx url None) (events_since w0 w).


(** A line that [write_lines] keeps. *)
Definition nonempty (line : string) : bool := negb (String.eqb line "").

(** ** Concrete inputs *)

Module Scenario.

(** A configured deployment whose libraries and provider do not fail. *)
Definition demo_env : env :=
  {| get_settings := {| RESEND_API_KEY := Some "re_test_key";
                        RESEND_FROM := Some "bookings@infinity8.example" |};
     PDF_ENABLED := true;
     RESEND_AVAILABLE := true;
     fpdf_output := fun _ => Ok "%PDF-1.3";
     resend_send := fun _ _ _ => None;
     update_fault := fun _ _ _ _ _ => None;
     py_repr := fun _ => "" |}.

Definition sky_loft : dict :=
  list_to_map [("name", VStr "Sky Loft"); ("location", VStr "KL")].

(** Booking "B1" of the specification's scenario; 150.5 is 301 / 2. *)
Definition booking_B1 : dict :=
  list_to_map
    [("id", VStr "B1"); ("user_id", VStr "U1"); ("spaces", VDict sky_loft);
     ("start_time", VStr "2024-01-01T10:00:00Z");
     ("end_time", VStr "2024-01-01T12:00:00Z");
     ("attendees_count", VInt 4);
     ("total_amount", VFloat (S754_finite false 301 (-1)))].

Definition profile_ann : dict :=
  list_to_map [("email", VStr "a@x.com"); ("full_name", VStr "Ann")].

(** What the workflow passes on for a missing profile: [{}]. *)
Definition no_profile : dict := ∅.

(** A space whose name is the empty string. *)
Definition unnamed_space : dict := {[ "name" := VStr "" ]}.

(** No payment row. *)
Definition unpaid_world : world :=
  {| bookings := {[ "B1" := booking_B1 ]};
     payments := ∅;
     profiles := {[ "U1" := profile_ann ]};
     history := [] |}.

(** A payment row that already holds a receipt URL. *)
Definition payment_with_receipt : dict :=
  list_to_map
    [("payment_status", VStr "completed"); ("transaction_id", VStr "tx_1");
     ("receipt_url", VStr "https://pay.example/receipts/1")].

Definition receipt_world : world :=
  {| bookings := {[ "B1" := booking_B1 ]};
     payments := {[ "B1" := payment_with_receipt ]};
     profiles := {[ "U1" := profile_ann ]};
     history := [] |}.

(** A payment row without a receipt URL. *)
Definition payment_plain : dict :=
  list_to_map [("payment_status", VStr "completed"); ("transaction_id", VStr "tx_1")].

Definition paid_world : world :=
  {| bookings := {[ "B1" := booking_B1 ]};
     payments := {[ "B1" := payment_plain ]};
     profiles := {[ "U1" := profile_ann ]};
     history := [] |}.

(** The booking's owner has no profile row. *)
Definition orphan_world : world :=
  {| bookings := {[ "B1" := booking_B1 ]};
     payments := ∅;
     profiles := ∅;
     history := [] |}.

(** The payment row once the confirmation has been marked as sent. *)
Definition payment_marked : dict :=
  <["receipt_url" := VStr "email_sent"]> payment_plain.

Definition marked_world : world :=
  {| bookings := {[ "B1" := booking_B1 ]};
     payments := {[ "B1" := payment_marked ]};
     profiles := {[ "U1" := profile_ann ]};
     history := [] |}.

(** The same deployment with a provider that turns every request down. *)
Definition rejecting_env : env :=
  {| get_settings := get_settings demo_env;
     PDF_ENABLED := true;
     RESEND_AVAILABLE := true;
     fpdf_output := fun _ => Ok "%PDF-1.3";
     resend_send := fun _ _ _ => Some (Exn (ExternalError "ResendError") "rate limit exceeded");
     update_fault := fun _ _ _ _ _ => None;
     py_repr := fun _ => "" |}.


(** Booking "B1" with an unnamed space and an empty attendee count. *)
Definition blank_booking : dict :=
  <["attendees_count" := VStr ""]> (<["spaces" := VDict unnamed_space]> booking_B1).

(** A stand-in for the PDF library that writes out the text of the cells,
    one per line. *)
Definition text_of_op (op : pdf_op) : list string :=
  match op with
  | Cell _ _ txt _ => [txt]
  | MultiCell _ _ txt => [txt]
  | _ => []
  end.

Definition text_env : env :=
  {| get_settings := get_settings demo_env;
     PDF_ENABLED := true;
     RESEND_AVAILABLE := true;
     fpdf_output := fun doc => Ok (Str.join Str.LF (concat (map text_of_op doc)));
     resend_send := fun _ _ _ => None;
     update_fault := fun _ _ _ _ _ => None;
     py_repr := fun _ => "" |}.


(** No credentials. *)
Definition bare_env : env :=
  {| get_settings := {| RESEND_API_KEY := None; RESEND_FROM := None |};
     PDF_ENABLED := true;
     RESEND_AVAILABLE := true;
     fpdf_output := fun _ => Ok "%PDF-1.3";
     resend_send := fun _ _ _ => None;
     update_fault := fun _ _ _ _ _ => None;
     py_repr := fun _ => "" |}.

End Scenario.

(** ** Further readings of a run *)

Definition is_print (ev : event) : bool :=
  match ev with Print _ => true | _ => false end.

(** A line boundary of [str.splitlines] starts somewhere in the string. *)
Fixpoint has_line_boundary (s : string) : bool :=
  match s with
  | EmptyString => false
  | String c s' => Str.is_break1 c || Str.wide_break c s' || has_line_boundary s'
  end.

Module Cases.

(** The deployment of [Scenario.demo_env] over a store that turns every
    update down. *)
Definition readonly_env : env :=
  {| get_settings := get_settings Scenario.demo_env;
     PDF_ENABLED := true;
     RESEND_AVAILABLE := true;
     fpdf_output := fun _ => Ok "%PDF-1.3";
     resend_send := fun _ _ _ => None;
     update_fault := fun _ _ _ _ _ => Some (Exn (ExternalError "APIError") "permission denied");
     py_repr := fun _ => "" |}.

(** The confirmation of booking "B1" as [Scenario.demo_env] sends it. *)
Definition confirmation_B1 : email :=
  request Scenario.demo_env "B1" (VStr "a@x.com")
    "Booking confirmed: Sky Loft on January 01, 2024 10:00 AM"
    (Str.join Str.LF
       ["Hi Ann,"; ""; "Your booking is confirmed. Details:";
        "- Space: Sky Loft"; "- Location: KL";
        "- Starts: January 01, 2024 10:00 AM";
        "- Ends: January 01, 2024 12:00 PM"; "- Attendees: 4";
        "- Amount: RM150.50"; "";
        "The confirmation PDF is attached. We look forward to hosting you!";
        ""; "-- Infinity8 Team"])
    (Some "%PDF-1.3").

End Cases.

(** * Properties *)

(** ** The monad and the recorded events *)

Lemma extend_nil w : extend w [] = w.
Proof. destruct w; unfold extend; simpl. by rewrite app_nil_r. Qed.

Lemma extend_extend w a b : extend (extend w a) b = extend w (a ++ b)%list.
Proof. unfold extend; simpl. by rewrite app_assoc. Qed.

Lemma bind_lift_ok {A B} (a : A) (k : A -> M B) w : bind (lift (Ok a)) k w = k a w.
Proof. reflexivity. Qed.

Lemma bind_lift_raise {A B} e (k : A -> M B) w :
  bind (lift (Raise e)) k w = (Raise e, w).
Proof. reflexivity. Qed.

Lemma bind_get_booking_by_id {B} id (k : pyval -> M B) w :
  bind (Supabase.get_booking_by_id id) k w
  = k (Supabase.row (bookings w !! id)) (extend w [GetBooking id]).
Proof. reflexivity. Qed.

Lemma bind_get_payment_by_booking {B} id (k : pyval -> M B) w :
  bind (Supabase.get_payment_by_booking id) k w
  = k (Supabase.row (payments w !! id)) (extend w [GetPayment id]).
Proof. reflexivity. Qed.

Lemma bind_get_user_profile {B} u (k : pyval -> M B) w :
  bind (Supabase.get_user_profile u) k w
  = k (match u with VStr x => Supabase.row (profiles w !! x) | _ => VNone end)
      (extend w [GetUserProfile u]).
Proof. reflexivity. Qed.

Lemma print_run msg w : print msg w = (Ok tt, extend w [Print msg]).
Proof. reflexivity. Qed.

Lemma events_since_extend w evs : events_since w (extend w evs) = evs.
Proof. unfold events_since, extend; simpl. by rewrite drop_app_length. Qed.

(** ** Every run is one of the outcomes *)

Lemma already_sent_check id w :
  (if Py.truthy (Supabase.row (payments w !! id))
   then rbind (Py.get (Supabase.row (payments w !! id)) "receipt_url" VNone)
          (fun r => Ok (Py.eq_str r "email_sent"))
   else Ok false) = Ok (already_sent id w).
Proof.
  unfold already_sent. destruct (payments w !! id) as [p|]; [|done].
  cbn [Supabase.row]. by destruct (Py.truthy (VDict p)).
Qed.

Lemma profile_email_ok w b :
  Py.get (Py.or (profile_of w b) (VDict ∅)) "email" VNone
  = Ok (match Py.or (profile_of w b) (VDict ∅) with
        | VDict d => Py.item d "email" VNone
        | _ => VNone
        end).
Proof.
  unfold profile_of. destruct (user_id_of b); try done.
  destruct (profiles w !! s) as [d|]; cbn [Supabase.row]; [|done].
  unfold Py.or. by destruct (Py.truthy (VDict d)).
Qed.

Lemma send_email_configured E id to_email subject body pdf :
  configured E = true ->
  _send_email_with_attachment E to_email subject body pdf ("booking-" +:+ id +:+ ".pdf")
  = resend_emails_send E (RESEND_API_KEY (get_settings E))
      (request E id to_email subject body pdf).
Proof.
  unfold configured, _send_email_with_attachment. intros H.
  apply andb_prop in H as [H Hav]. rewrite H, Hav. reflexivity.
Qed.

Lemma bind_try_send {B} E key req (k : result unit -> M B) w :
  bind (try_ (resend_emails_send E key req)) k w
  = k (match resend_send E w key req with Some e => Raise e | None => Ok tt end)
      (extend w [Send key req (resend_send E w key req)]).
Proof.
  unfold bind, try_, resend_emails_send.
  destruct (resend_send E w key req); reflexivity.
Qed.

Lemma mark_sent_none E id w :
  mark_sent E id VNone w = (Ok tt, w).
Proof. reflexivity. Qed.

Lemma mark_sent_row E id p w :
  mark_sent E id (VDict p) w =
  if Py.truthy (VDict p) then
    match update_fault E w id (mark_status p) (mark_transaction p) (mark_receipt p) with
    | None =>
        (Ok tt, extend (Supabase.set_payment id (mark_status p) (mark_transaction p)
                          (mark_receipt p) w)
                  [UpdatePaymentStatus id (mark_status p) (mark_transaction p)
                     (mark_receipt p) None])
    | Some e =>
        (Ok tt, extend w
                  [UpdatePaymentStatus id (mark_status p) (mark_transaction p)
                     (mark_receipt p) (Some e);
                   Print ("Warning: could not mark confirmation email as sent ("
                          +:+ id +:+ "): " +:+ exn_msg e)])
    end
  else (Ok tt, w).
Proof.
  unfold mark_sent. destruct (Py.truthy (VDict p)); [|done].
  unfold bind, try_, lift, Supabase.update_payment_status; cbn [Py.get].
  fold (mark_status p) (mark_transaction p) (mark_receipt p).
  destruct (update_fault E w id (mark_status p) (mark_transaction p) (mark_receipt p));
    [|reflexivity].
  change (extend w [?a; ?b]) with (extend w ([a] ++ [b])).
  by rewrite <- extend_extend.
Qed.

Lemma run_outcome E id fb w :
  holds_for (outcome E id fb w) (send_booking_confirmation_email E id fb w).
Proof.
  unfold send_booking_confirmation_email.
  destruct (is_set (RESEND_API_KEY (get_settings E))) eqn:Hkey; cbn [negb orb].
  2:{ rewrite print_run. apply Unconfigured. unfold configured. by rewrite Hkey. }
  destruct (is_set (RESEND_FROM (get_settings E))) eqn:Hfrom; cbn [negb orb].
  2:{ rewrite print_run. apply Unconfigured. unfold configured. by rewrite Hkey, Hfrom. }
  destruct (RESEND_AVAILABLE E) eqn:Hav; cbn [negb orb].
  2:{ rewrite print_run. apply Unconfigured. unfold configured. by rewrite Hkey, Hfrom, Hav. }
  assert (Hc : configured E = true) by (unfold configured; by rewrite Hkey, Hfrom, Hav).
  rewrite bind_get_booking_by_id.
  destruct (Py.truthy (Supabase.row (bookings w !! id))) eqn:Hbt; cbn [negb].
  2:{ rewrite print_run, extend_extend. by apply BookingNotFound. }
  destruct (bookings w !! id) as [b|] eqn:Hb; [|done].
  rewrite bind_get_payment_by_booking, extend_extend.
  change (payments (extend w _)) with (payments w).
  rewrite already_sent_check, bind_lift_ok.
  destruct (already_sent id w) eqn:Ha.
  { by eapply AlreadySent. }
  cbn [Supabase.row Py.get]. rewrite bind_lift_ok, bind_get_user_profile, extend_extend.
  change (match Py.item b "user_id" (VStr "") with
          | VStr x => Supabase.row (profiles (extend w _) !! x)
          | _ => VNone
          end) with (profile_of w b).
  rewrite profile_email_ok, bind_lift_ok.
  fold (recipient_of fb w b).
  change (([GetBooking id] ++ [GetPayment id]) ++ [GetUserProfile (Py.item b "user_id" (VStr ""))])%list
    with (lookups id b).
  destruct (Py.truthy (recipient_of fb w b)) eqn:Hr; cbn [negb].
  2:{ rewrite print_run, extend_extend. by eapply NoRecipient. }
  rewrite !bind_lift_ok.
  set (space := Py.or (Py.item b "spaces" VNone) (VDict ∅)).
  set (label := _format_datetime (Py.item b "start_time" (VStr ""))).
  assert (Hcompose : email_content E (VDict b) (profile_of w b) =
    rbind (subject_line E space label) (fun subject =>
    rbind (body_lines E (VDict b) (profile_of w b) space label) (fun lines =>
    rbind (_build_booking_pdf E (VDict b) (Py.or (profile_of w b) (VDict ∅))) (fun pdf =>
    Ok (subject, Str.join Str.LF lines, pdf))))) by reflexivity.
  destruct (subject_line E space label) as [subject|e] eqn:Hs.
  2:{ rewrite bind_lift_raise. by eapply ContentRaised. }
  rewrite bind_lift_ok.
  destruct (body_lines E (VDict b) (profile_of w b) space label) as [lines|e] eqn:Hl.
  2:{ rewrite bind_lift_raise. by eapply ContentRaised. }
  rewrite bind_lift_ok.
  destruct (_build_booking_pdf E (VDict b) (Py.or (profile_of w b) (VDict ∅)))
    as [pdf|e] eqn:Hpdf.
  2:{ rewrite bind_lift_raise. by eapply ContentRaised. }
  rewrite bind_lift_ok. cbn [rbind] in Hcompose.
  rewrite (send_email_configured E id) by done.
  rewrite bind_try_send.
  destruct (resend_send E (extend w (lookups id b)) (RESEND_API_KEY (get_settings E))
              (request E id (recipient_of fb w b) subject (Str.join Str.LF lines) pdf))
    as [e|] eqn:Hsend.
  { rewrite print_run, !extend_extend. by eapply SendRaised. }
  destruct (payments w !! id) as [p|] eqn:Hp; cbn [Supabase.row].
  2:{ rewrite mark_sent_none, extend_extend. eapply SentUnmarked; try done. by rewrite Hp. }
  rewrite mark_sent_row.
  destruct (Py.truthy (VDict p)) eqn:Hpt.
  2:{ rewrite extend_extend. eapply SentUnmarked; try done. by rewrite Hp. }
  rewrite extend_extend.
  destruct (update_fault E (extend w (lookups id b ++ [Send (RESEND_API_KEY (get_settings E))
      (request E id (recipient_of fb w b) subject (Str.join Str.LF lines) pdf) None]))
      id (mark_status p) (mark_transaction p) (mark_receipt p)) as [e|] eqn:Hu.
  - rewrite extend_extend, <- app_assoc. by eapply SentMarkFailed.
  - change (Supabase.set_payment ?a ?b ?c ?d (extend ?w ?evs))
      with (extend (Supabase.set_payment a b c d w) evs).
    rewrite extend_extend, <- app_assoc. by eapply SentMarked.
Qed.

Lemma run_outcome_eq E id fb w r w' :
  send_booking_confirmation_email E id fb w = (r, w') -> outcome E id fb w r w'.
Proof. intros H. pose proof (run_outcome E id fb w) as Ho. by rewrite H in Ho. Qed.

Lemma events_since_set_payment w id st tx url evs :
  events_since w (extend (Supabase.set_payment id st tx url w) evs) = evs.
Proof. unfold events_since, extend, Supabase.set_payment; simpl. by rewrite drop_app_length. Qed.

(** Goes through the outcomes of the run [Hrun], with the events of each
    spelled out. *)
Ltac run_cases Hrun :=
  destruct (run_outcome_eq _ _ _ _ _ _ Hrun);
  rewrite ?events_since_extend, ?events_since_set_payment in *.

(** Locates the event of [Hin : In ev evs] in such a list of events. *)
Ltac find_event Hin :=
  cbn [lookups app In] in Hin;
  repeat (destruct Hin as [Hin|Hin]; try discriminate Hin); try done.

(** In [H : (let? x := r in ...) = Ok v] every result bound on the way is
    an [Ok]. *)
Ltac all_ok H :=
  repeat match type of H with
         | match ?r with Ok _ => _ | Raise _ => _ end = _ =>
             destruct r eqn:?; [|discriminate H]
         end.

Lemma truthy_dict_lookup (d : dict) k v : d !! k = Some v -> Py.truthy (VDict d) = true.
Proof.
  intros H. cbn. apply negb_true_iff, bool_decide_eq_false. intros ->.
  by rewrite lookup_empty in H.
Qed.

Lemma already_sent_sentinel id w p :
  payments w !! id = Some p -> p !! "receipt_url" = Some (VStr "email_sent") ->
  already_sent id w = true.
Proof.
  intros Hp Hr. unfold already_sent. rewrite Hp, (truthy_dict_lookup _ _ _ Hr).
  unfold Py.item. by rewrite Hr.
Qed.

Lemma already_sent_row_falsy id w :
  Py.truthy (Supabase.row (payments w !! id)) = false -> already_sent id w = false.
Proof.
  unfold already_sent. destruct (payments w !! id) as [p|]; [|done].
  cbn [Supabase.row]. by intros ->.
Qed.

(** ** Lines and line boundaries *)

Module StrFacts.
Import Str.





Lemma join_cons_char sep c l : join sep (cons_char c l) = String c (join sep l).
Proof. destruct l as [|x [|y r]]; reflexivity. Qed.









End StrFacts.

(** ** The idempotency check (C3) and a failing dispatch (C4) *)

(** What a run does once the sentinel is in place. *)
Lemma sentinel_run E id fb w :
  already_sent id w = true ->
  exists evs,
    send_booking_confirmation_email E id fb w = (Ok tt, extend w evs)
    /\ count is_send evs = 0%nat /\ count is_update evs = 0%nat
    /\ (configured E = true ->
        Py.truthy (Supabase.row (bookings w !! id)) = true ->
        evs = [GetBooking id; GetPayment id]).
Proof.
  intros Ha.
  destruct (send_booking_confirmation_email E id fb w) as [r w'] eqn:Hrun.
  run_cases Hrun; try congruence;
    try match goal with
        | H : Py.truthy (Supabase.row (payments w !! id)) = false |- _ =>
            apply already_sent_row_falsy in H; congruence
        end;
    eexists; (split; [done|]); repeat split; intros; congruence.
Qed.

(** C3: with the payment's receipt_url equal to "email_sent", an invocation
    returns normally without calling the email provider and without
    updating the store; once the booking is found it stops right after the
    payment lookup. *)
Theorem sentinel_means_no_send_no_update E id fb w p :
  payments w !! id = Some p ->
  p !! "receipt_url" = Some (VStr "email_sent") ->
  exists evs,
    send_booking_confirmation_email E id fb w = (Ok tt, extend w evs)
    /\ count is_send evs = 0%nat /\ count is_update evs = 0%nat
    /\ (configured E = true ->
        Py.truthy (Supabase.row (bookings w !! id)) = true ->
        evs = [GetBooking id; GetPayment id]).
Proof.
  intros Hp Hr. apply sentinel_run. by eapply already_sent_sentinel.
Qed.

Lemma sentinel_means_no_send_no_update_witness :
  send_booking_confirmation_email Scenario.demo_env "B1" None Scenario.marked_world
  = (Ok tt, extend Scenario.marked_world [GetBooking "B1"; GetPayment "B1"]).
Proof.
  destruct (sentinel_means_no_send_no_update Scenario.demo_env "B1" None
              Scenario.marked_world Scenario.payment_marked eq_refl eq_refl)
    as (evs & Hrun & _ & _ & Hevs).
  rewrite Hrun, Hevs; [reflexivity | reflexivity | vm_compute; reflexivity].
Defined.

(** C4: when the call of the provider raises, the run logs the failure as
    its last step, returns normally, and makes no update of the payment. *)
Theorem dispatch_failure_is_logged_and_swallowed E id fb w r w' key req e :
  send_booking_confirmation_email E id fb w = (r, w') ->
  In (Send key req (Some e)) (events_since w w') ->
  r = Ok tt
  /\ count is_update (events_since w w') = 0%nat
  /\ same_store w w'
  /\ last (events_since w w')
     = Some (Print ("Failed to send booking confirmation email for "
                    +:+ id +:+ ": " +:+ exn_msg e)).
Proof.
  intros Hrun Hin.
  run_cases Hrun; find_event Hin.
  injection Hin as _ _ ->. repeat split; done.
Qed.

Lemma dispatch_failure_is_logged_and_swallowed_witness :
  (send_booking_confirmation_email Scenario.rejecting_env "B1" None
     Scenario.paid_world).1 = Ok tt
  /\ last (events_since Scenario.paid_world
             (send_booking_confirmation_email Scenario.rejecting_env "B1" None
                Scenario.paid_world).2)
     = Some (Print "Failed to send booking confirmation email for B1: rate limit exceeded").
Proof.
  destruct (dispatch_failure_is_logged_and_swallowed Scenario.rejecting_env "B1" None
              Scenario.paid_world _ _ _ _ _ (surjective_pairing _)
              ltac:(vm_compute; right; right; right; left; reflexivity))
    as (Hr & _ & _ & Hlast).
  split; [exact Hr | exact Hlast].
Defined.

(** ** Marking the payment (C1) *)




(** ** Repeated invocations (C2) *)

Lemma count_app p a b : count p (a ++ b) = (count p a + count p b)%nat.
Proof. unfold count. by rewrite List.filter_app, length_app. Qed.

Lemma sentinel_stays E id fbs : forall w,
  already_sent id w = true ->
  exists evs,
    invoke_all E id fbs w = extend w evs
    /\ count is_send evs = 0%nat /\ count is_update evs = 0%nat.
Proof.
  induction fbs as [|fb fbs IH]; intros w Ha.
  - exists []. by rewrite extend_nil.
  - destruct (sentinel_run E id fb w Ha) as (evs & Hrun & Hs & Hu & _).
    cbn [invoke_all]. rewrite Hrun. cbn [snd].
    destruct (IH (extend w evs) Ha) as (evs' & -> & Hs' & Hu').
    exists (evs ++ evs')%list. rewrite extend_extend, !count_app, Hs, Hs', Hu, Hu'. done.
Qed.

Lemma just_marked_sentinel E id w : just_marked E id w -> already_sent id w = true.
Proof.
  intros (w0 & fb & r & p & key & req & st & tx & url & Hrun & Hp & Hurl & Hs & Hu).
  run_cases Hrun; find_event Hs; find_event Hu.
  assert (p0 = p) as -> by congruence.
  unfold already_sent, extend, Supabase.set_payment; cbn [payments].
  rewrite Hp, lookup_insert_eq.
  assert (Hm : mark_receipt p = VStr "email_sent") by (unfold mark_receipt, Py.or; by rewrite Hurl).
  rewrite Hm.
  rewrite (truthy_dict_lookup _ "receipt_url" (VStr "email_sent")) by apply lookup_insert_eq.
  unfold Py.item. by rewrite lookup_insert_eq.
Qed.

(** C2, as the specification states it, fails: a booking without payment
    row gets the email on every invocation. *)
Lemma no_payment_row_sends_every_time :
  count is_delivery
    (events_since Scenario.unpaid_world
       (invoke_all Scenario.demo_env "B1" [None; None] Scenario.unpaid_world)) = 2%nat.
Proof. vm_compute. reflexivity. Qed.

(** C2, amended: once the payment's receipt_url holds the sentinel, or
    right after a delivery whose update of a payment row without receipt
    URL succeeded, no invocation for the booking calls the provider or
    changes the store, however many follow. *)
Theorem no_dispatch_once_marked E id fbs w :
  already_sent id w = true \/ just_marked E id w ->
  exists evs,
    invoke_all E id fbs w = extend w evs
    /\ count is_send evs = 0%nat /\ count is_update evs = 0%nat.
Proof.
  intros [Ha|Hm]; apply sentinel_stays; [done|]. by eapply just_marked_sentinel.
Qed.

Lemma no_dispatch_once_marked_witness :
  exists evs,
    invoke_all Scenario.demo_env "B1" [None; Some "b@x.com"; None]
      (send_booking_confirmation_email Scenario.demo_env "B1" None Scenario.paid_world).2
    = extend (send_booking_confirmation_email Scenario.demo_env "B1" None
                Scenario.paid_world).2 evs
    /\ count is_send evs = 0%nat /\ count is_update evs = 0%nat.
Proof.
  apply no_dispatch_once_marked. right.
  exists Scenario.paid_world, None. eexists _, Scenario.payment_plain, _, _, _, _, _.
  split; [apply surjective_pairing|].
  split; [reflexivity|]. split; [reflexivity|].
  split; vm_compute.
  - right; right; right; left; reflexivity.
  - right; right; right; right; left; reflexivity.
Defined.

(** ** Exceptions that escape (C5) *)

Lemma subject_line_raises E space label e :
  subject_line E space label = Raise e -> exn_cls e = AttributeError.
Proof.
  unfold subject_line. destruct space; cbn [Py.get rbind]; intros H;
    try discriminate H; by injection H as <-.
Qed.

(** Without a profile the body cannot be built. *)
Lemma email_content_without_profile E (b : dict) :
  exists e, email_content E (VDict b) VNone = Raise e /\ exn_cls e = AttributeError.
Proof.
  unfold email_content. cbn [Py.get rbind].
  destruct (subject_line E _ _) as [subject|e] eqn:Hs; cbn [rbind].
  - by eexists.
  - exists e. split; [done|]. by eapply subject_line_raises.
Qed.

Lemma recipient_of_fallback w b addr :
  profile_of w b = VNone -> recipient_of (Some addr) w b = VStr addr.
Proof. intros Hp. unfold recipient_of. by rewrite Hp. Qed.

(** C5: the workflow does raise to its caller.  A booking whose owner has
    no profile row, confirmed to a fallback address: the recipient resolves
    (line 149 reads [user_profile or {}]), then the body is built and line
    159 calls [get] on [None] outside any handler.  The AttributeError
    reaches the caller and nothing is logged. *)
Theorem missing_profile_with_fallback_raises E id addr w b :
  configured E = true ->
  bookings w !! id = Some b ->
  Py.truthy (VDict b) = true ->
  already_sent id w = false ->
  profile_of w b = VNone ->
  addr <> "" ->
  exists e,
    send_booking_confirmation_email E id (Some addr) w = (Raise e, extend w (lookups id b))
    /\ exn_cls e = AttributeError.
Proof.
  intros Hc Hb Hbt Ha Hprof Haddr.
  destruct (email_content_without_profile E b) as (e0 & He0 & Hcls).
  destruct (send_booking_confirmation_email E id (Some addr) w) as [r w'] eqn:Hrun.
  run_cases Hrun; try (subst req key); try congruence;
    try (assert (b0 = b) as -> by congruence);
    repeat match goal with
      | H : Py.truthy (Supabase.row (bookings _ !! _)) = false |- _ =>
          rewrite Hb in H; cbn [Supabase.row] in H; congruence
      | H : Py.truthy (recipient_of _ _ _) = false |- _ =>
          rewrite (recipient_of_fallback w b addr Hprof) in H; cbn in H;
          apply String.eqb_neq in Haddr; rewrite Haddr in H; discriminate H
      | H : email_content _ _ _ = _ |- _ => rewrite Hprof, He0 in H; try discriminate H
      end.
  exists e0. split; [|done]. congruence.
Qed.

Lemma missing_profile_with_fallback_raises_witness :
  exists e,
    send_booking_confirmation_email Scenario.demo_env "B1" (Some "guest@x.com")
      Scenario.orphan_world
    = (Raise e, extend Scenario.orphan_world (lookups "B1" Scenario.booking_B1))
    /\ exn_cls e = AttributeError.
Proof.
  apply missing_profile_with_fallback_raises;
    [reflexivity | reflexivity | vm_compute; reflexivity | reflexivity
    | vm_compute; reflexivity | discriminate].
Defined.

(** The run in full: the exception and the three lookups before it. *)
Lemma missing_profile_run :
  send_booking_confirmation_email Scenario.demo_env "B1" (Some "guest@x.com")
    Scenario.orphan_world
  = (Raise (Exn AttributeError "'NoneType' object has no attribute 'get'"),
     extend Scenario.orphan_world
       [GetBooking "B1"; GetPayment "B1"; GetUserProfile (VStr "U1")]).
Proof. vm_compute. reflexivity. Qed.

(** ** The amount (C6) *)







(** ** [_format_datetime] (C7) *)



(** ** The scenario of booking "B1" (C8) *)

Section ScenarioB1.

Context (E : env) (w : world).
Hypothesis profile_found : profiles w !! "U1" = Some Scenario.profile_ann.

Lemma profile_of_B1 : profile_of w Scenario.booking_B1 = VDict Scenario.profile_ann.
Proof.
  unfold profile_of. change (user_id_of Scenario.booking_B1) with (VStr "U1").
  cbv beta iota. by rewrite profile_found.
Qed.

Lemma recipient_of_B1 fb : recipient_of fb w Scenario.booking_B1 = VStr "a@x.com".
Proof. unfold recipient_of. rewrite profile_of_B1. vm_compute. reflexivity. Qed.

Lemma email_content_B1 :
  email_content E (VDict Scenario.booking_B1) (VDict Scenario.profile_ann)
  = rbind (_build_booking_pdf E (VDict Scenario.booking_B1) (VDict Scenario.profile_ann))
      (fun pdf =>
         Ok ("Booking confirmed: Sky Loft on January 01, 2024 10:00 AM",
             Str.join Str.LF
               ["Hi Ann,"; ""; "Your booking is confirmed. Details:";
                "- Space: Sky Loft"; "- Location: KL";
                "- Starts: January 01, 2024 10:00 AM";
                "- Ends: January 01, 2024 12:00 PM"; "- Attendees: 4";
                "- Amount: RM150.50"; "";
                "The confirmation PDF is attached. We look forward to hosting you!";
                ""; "-- Infinity8 Team"],
             pdf)).
Proof. vm_compute. reflexivity. Qed.

Lemma build_booking_pdf_B1 :
  (forall doc, is_ok (fpdf_output E doc) = true) ->
  is_ok (_build_booking_pdf E (VDict Scenario.booking_B1) (VDict Scenario.profile_ann)) = true.
Proof.
  intros Hpdf. unfold _build_booking_pdf. destruct (PDF_ENABLED E); [|done].
  unfold rbind at 1, Py.get at 1.
  destruct (summary_lines E _ _ _) as [lines|e] eqn:Hlines.
  - unfold rbind. specialize (Hpdf (booking_pdf lines)).
    by destruct (fpdf_output E (booking_pdf lines)).
  - vm_compute in Hlines. discriminate Hlines.
Qed.

End ScenarioB1.

(** C8: booking "B1" without payment row, profile of Ann at "a@x.com",
    space "Sky Loft" in "KL", 10:00 to 12:00 on 2024-01-01, 4 attendees,
    total 150.5: one call of the provider, to "a@x.com", with the subject
    "Booking confirmed: Sky Loft on January 01, 2024 10:00 AM", and no
    update of a payment. *)
Theorem scenario_B1_one_dispatch_no_update E fb w :
  configured E = true ->
  bookings w !! "B1" = Some Scenario.booking_B1 ->
  payments w !! "B1" = None ->
  profiles w !! "U1" = Some Scenario.profile_ann ->
  (forall doc, is_ok (fpdf_output E doc) = true) ->
  (forall w1 key req, resend_send E w1 key req = None) ->
  exists req,
    send_booking_confirmation_email E "B1" fb w
    = (Ok tt,
       extend w [GetBooking "B1"; GetPayment "B1"; GetUserProfile (VStr "U1");
                 Send (RESEND_API_KEY (get_settings E)) req None])
    /\ subject req = "Booking confirmed: Sky Loft on January 01, 2024 10:00 AM"
    /\ to req = [VStr "a@x.com"].
Proof.
  intros Hc Hb Hp Hprof Hpdf Hsend.
  assert (Ha : already_sent "B1" w = false) by (unfold already_sent; by rewrite Hp).
  pose proof (build_booking_pdf_B1 E Hpdf) as Hok.
  destruct (send_booking_confirmation_email E "B1" fb w) as [r w'] eqn:Hrun.
  run_cases Hrun; try (subst req key); try congruence;
    try (assert (b = Scenario.booking_B1) as -> by congruence);
    repeat match goal with
      | H : email_content _ _ _ = _ |- _ =>
          rewrite (profile_of_B1 w Hprof), email_content_B1 in H;
          destruct (_build_booking_pdf E _ _) as [pdf'|]; [|discriminate];
          cbn [rbind] in H; try discriminate H; injection H as <- <- <-
      | H : Py.truthy (recipient_of _ _ _) = false |- _ =>
          rewrite (recipient_of_B1 w Hprof) in H; discriminate H
      | H : resend_send _ _ _ _ = Some _ |- _ => rewrite Hsend in H; discriminate H
      | H : Py.truthy (Supabase.row (bookings _ !! _)) = false |- _ =>
          rewrite Hb in H; vm_compute in H; discriminate H
      end.
  eexists. rewrite (recipient_of_B1 w Hprof). repeat split; reflexivity.
Qed.

Lemma scenario_B1_one_dispatch_no_update_witness :
  exists req,
    send_booking_confirmation_email Scenario.demo_env "B1" None Scenario.unpaid_world
    = (Ok tt,
       extend Scenario.unpaid_world
         [GetBooking "B1"; GetPayment "B1"; GetUserProfile (VStr "U1");
          Send (Some "re_test_key") req None])
    /\ subject req = "Booking confirmed: Sky Loft on January 01, 2024 10:00 AM"
    /\ to req = [VStr "a@x.com"].
Proof.
  apply (scenario_B1_one_dispatch_no_update Scenario.demo_env None Scenario.unpaid_world);
    reflexivity.
Defined.

(** ** The summary block of the PDF (C9) *)

Lemma write_lines_filter pdf lines :
  write_lines pdf lines = (pdf ++ map (MultiCell 0 8) (List.filter nonempty lines))%list.
Proof.
  revert pdf. induction lines as [|line lines IH]; intros pdf; cbn [write_lines List.filter].
  - by rewrite app_nil_r.
  - unfold nonempty at 1. destruct (String.eqb line ""); cbn [negb]; rewrite IH; [done|].
    by rewrite <- app_assoc.
Qed.

Lemma summary_lines_shape E booking profile space lines :
  summary_lines E booking profile space = Ok lines ->
  length lines = 10%nat
  /\ (forall i, lines !! i = Some "" -> i = 2%nat /\ Py.truthy profile = false)
  /\ (Py.truthy profile = false -> lines !! 2%nat = Some "").
Proof.
  intros H. unfold summary_lines, rbind in H.
  all_ok H.
  injection H as <-.
  match goal with
  | Hemail : (if Py.truthy profile then _ else _) = Ok _ |- _ =>
      destruct (Py.truthy profile);
      [ destruct (Py.get profile "email" (VStr "")); [|discriminate Hemail] |];
      injection Hemail as <-
  end.
  - split; [done|]. split; [|done].
    intros i Hi. do 10 (destruct i as [|i]; [discriminate Hi|]). discriminate Hi.
  - split; [done|]. split; [|done].
    intros i Hi. do 2 (destruct i as [|i]; [discriminate Hi|]).
    destruct i as [|i]; [done|].
    do 7 (destruct i as [|i]; [discriminate Hi|]). discriminate Hi.
Qed.

Lemma build_booking_pdf_lines E booking profile bytes :
  _build_booking_pdf E booking profile = Ok (Some bytes) ->
  exists space lines,
    summary_lines E booking profile space = Ok lines
    /\ fpdf_output E (booking_pdf lines) = Ok bytes.
Proof.
  unfold _build_booking_pdf, rbind. destruct (PDF_ENABLED E); cbn [negb]; [|discriminate].
  intros H. all_ok H. injection H as <-. by eexists _, _.
Qed.

(** C9, as the specification states it, fails: an empty space name and an
    empty attendee count each leave a line in the document. *)
Lemma empty_values_keep_their_line :
  _build_booking_pdf Scenario.text_env (VDict Scenario.blank_booking)
    (VDict Scenario.profile_ann)
  = Ok (Some (Str.join Str.LF
                ["Booking Confirmation"; "Booking ID: B1"; "Guest: Ann";
                 "Email: a@x.com"; "Space: "; "Location: Kuala Lumpur";
                 "Date: January 01, 2024 10:00 AM"; "End: January 01, 2024 12:00 PM";
                 "Attendees: "; "Total Paid: RM150.50"; "Status: Confirmed";
                 thank_you])).
Proof. vm_compute. reflexivity. Qed.

(** C9, amended: the summary block writes every line of [summary_lines]
    that is not the empty string, in order, and leaves out the others; the
    list has ten lines, and the only one that can be empty is the third,
    the Email line, which is empty exactly when the profile passed in is
    empty.  A line whose value is empty is written all the same. *)
Theorem summary_block_skips_only_the_email_line E booking profile bytes :
  _build_booking_pdf E booking profile = Ok (Some bytes) ->
  exists lines,
    fpdf_output E
      ([AddPage; SetFont "Helvetica" "B" 16; Cell 0 12 "Booking Confirmation" 1;
        SetFont "Helvetica" "" 11; Ln 4]
       ++ map (MultiCell 0 8) (List.filter nonempty lines)
       ++ [Ln 6; SetFont "Helvetica" "" 10; MultiCell 0 6 thank_you])%list
    = Ok bytes
    /\ length lines = 10%nat
    /\ (forall i, lines !! i = Some "" -> i = 2%nat /\ Py.truthy profile = false)
    /\ (Py.truthy profile = false -> lines !! 2%nat = Some "").
Proof.
  intros H. destruct (build_booking_pdf_lines _ _ _ _ H) as (space & lines & Hl & Hout).
  exists lines. split; [|by eapply summary_lines_shape].
  unfold booking_pdf in Hout. rewrite write_lines_filter in Hout.
  by rewrite <- !app_assoc in Hout.
Qed.

Lemma summary_block_skips_only_the_email_line_witness :
  exists lines,
    length lines = 10%nat
    /\ lines !! 2%nat = Some ""
    /\ fpdf_output Scenario.text_env
         ([AddPage; SetFont "Helvetica" "B" 16; Cell 0 12 "Booking Confirmation" 1;
           SetFont "Helvetica" "" 11; Ln 4]
          ++ map (MultiCell 0 8) (List.filter nonempty lines)
          ++ [Ln 6; SetFont "Helvetica" "" 10; MultiCell 0 6 thank_you])%list
       = Ok (Str.join Str.LF
               ["Booking Confirmation"; "Booking ID: B1"; "Guest: Guest";
                "Space: Sky Loft"; "Location: KL"; "Date: January 01, 2024 10:00 AM";
                "End: January 01, 2024 12:00 PM"; "Attendees: 4";
                "Total Paid: RM150.50"; "Status: Confirmed"; thank_you]).
Proof.
  assert (H : _build_booking_pdf Scenario.text_env (VDict Scenario.booking_B1)
                (VDict Scenario.no_profile)
              = Ok (Some (Str.join Str.LF
                  ["Booking Confirmation"; "Booking ID: B1"; "Guest: Guest";
                   "Space: Sky Loft"; "Location: KL"; "Date: January 01, 2024 10:00 AM";
                   "End: January 01, 2024 12:00 PM"; "Attendees: 4";
                   "Total Paid: RM150.50"; "Status: Confirmed"; thank_you])))
    by (vm_compute; reflexivity).
  destruct (summary_block_skips_only_the_email_line _ _ _ _ H)
    as (lines & Hout & Hlen & _ & Hemail).
  exists lines. split; [exact Hlen|]. split; [exact (Hemail eq_refl) | exact Hout].
Defined.

(** ** The HTML body (C10) *)





(** ** Further properties of the workflow *)

(** X1: when neither the profile nor the caller gives an address, the
    provider is not called and no payment is updated. *)
Theorem no_recipient_means_no_dispatch E id fb w r w' :
  send_booking_confirmation_email E id fb w = (r, w') ->
  (forall b, bookings w !! id = Some b -> Py.truthy (recipient_of fb w b) = false) ->
  count is_send (events_since w w') = 0%nat
  /\ count is_update (events_since w w') = 0%nat.
Proof.
  intros Hrun Hno.
  run_cases Hrun; try done;
    match goal with
    | Hb : bookings w !! id = Some ?b, Hr : Py.truthy (recipient_of fb w ?b) = true |- _ =>
        rewrite (Hno b Hb) in Hr; discriminate Hr
    end.
Qed.

Lemma no_recipient_means_no_dispatch_witness :
  count is_send
    (events_since Scenario.orphan_world
       (send_booking_confirmation_email Scenario.demo_env "B1" None
          Scenario.orphan_world).2) = 0%nat.
Proof.
  apply (no_recipient_means_no_dispatch Scenario.demo_env "B1" None Scenario.orphan_world
           _ _ (surjective_pairing _)).
  intros b Hb.
  assert (Hb' : bookings Scenario.orphan_world !! "B1" = Some Scenario.booking_B1)
    by reflexivity.
  rewrite Hb' in Hb. injection Hb as <-. vm_compute. reflexivity.
Defined.




(** X3: without credentials or without the SDK the workflow only logs that
    it skips the email; it looks nothing up and raises nothing. *)
Theorem unconfigured_is_a_logged_no_op E id fb w :
  configured E = false ->
  exists msg, send_booking_confirmation_email E id fb w = (Ok tt, extend w [Print msg]).
Proof.
  intros Hc.
  destruct (send_booking_confirmation_email E id fb w) as [r w'] eqn:Hrun.
  run_cases Hrun; try congruence. by eexists.
Qed.

Lemma unconfigured_is_a_logged_no_op_witness :
  exists msg,
    send_booking_confirmation_email Scenario.bare_env "B1" None Scenario.unpaid_world
    = (Ok tt, extend Scenario.unpaid_world [Print msg]).
Proof. apply unconfigured_is_a_logged_no_op. reflexivity. Defined.

(** ** What one invocation does at most *)

Ltac count_events :=
  unfold count, lookups;
  cbn [app List.filter is_send is_update is_delivery is_print length];
  lia.

(** X4: one invocation calls the provider at most once, updates a payment
    at most once and only after a delivery, and prints at most one line. *)
Theorem at_most_one_send_update_and_log_line E id fb w :
  let evs := events_since w (send_booking_confirmation_email E id fb w).2 in
  (count is_send evs <= 1)%nat
  /\ (count is_update evs <= count is_delivery evs)%nat
  /\ (count is_delivery evs <= count is_send evs)%nat
  /\ (count is_print evs <= 1)%nat.
Proof.
  destruct (send_booking_confirmation_email E id fb w) as [r w'] eqn:Hrun.
  cbn [snd]. run_cases Hrun; repeat split; count_events.
Qed.

(** X5: an exception that reaches the caller was raised while subject,
    body and PDF were built: the three lookups are all that happened, the
    provider was not called, nothing was printed and no row changed. *)
Theorem exception_escapes_before_any_send E id fb w e w' :
  send_booking_confirmation_email E id fb w = (Raise e, w') ->
  exists b,
    bookings w !! id = Some b
    /\ email_content E (VDict b) (profile_of w b) = Raise e
    /\ w' = extend w [GetBooking id; GetPayment id; GetUserProfile (user_id_of b)].
Proof.
  intros Hrun. pose proof (run_outcome_eq _ _ _ _ _ _ Hrun) as Ho.
  inversion Ho; subst. eexists. repeat split; eassumption.
Qed.

Lemma exception_escapes_before_any_send_witness :
  exists e,
    send_booking_confirmation_email Scenario.demo_env "B1" (Some "guest@x.com")
      Scenario.orphan_world
    = (Raise e,
       extend Scenario.orphan_world
         [GetBooking "B1"; GetPayment "B1"; GetUserProfile (VStr "U1")]).
Proof.
  assert (H : send_booking_confirmation_email Scenario.demo_env "B1" (Some "guest@x.com")
                Scenario.orphan_world
              = (Raise (Exn AttributeError "'NoneType' object has no attribute 'get'"),
                 (send_booking_confirmation_email Scenario.demo_env "B1" (Some "guest@x.com")
                    Scenario.orphan_world).2))
    by (vm_compute; reflexivity).
  destruct (exception_escapes_before_any_send _ _ _ _ _ _ H) as (b & Hb & _ & Hw).
  assert (Hb' : bookings Scenario.orphan_world !! "B1" = Some Scenario.booking_B1)
    by reflexivity.
  rewrite Hb' in Hb. injection Hb as <-.
  eexists. rewrite H, Hw. reflexivity.
Defined.

(** The events of three runs on the data of the scenario. *)
Lemma unpaid_run_events :
  events_since Scenario.unpaid_world
    (send_booking_confirmation_email Scenario.demo_env "B1" None Scenario.unpaid_world).2
  = [GetBooking "B1"; GetPayment "B1"; GetUserProfile (VStr "U1");
     Send (Some "re_test_key") Cases.confirmation_B1 None].
Proof. vm_compute. reflexivity. Qed.

Lemma paid_run_events :
  events_since Scenario.paid_world
    (send_booking_confirmation_email Scenario.demo_env "B1" None Scenario.paid_world).2
  = [GetBooking "B1"; GetPayment "B1"; GetUserProfile (VStr "U1");
     Send (Some "re_test_key") Cases.confirmation_B1 None;
     UpdatePaymentStatus "B1" (VStr "completed") (VStr "tx_1") (VStr "email_sent") None].
Proof. vm_compute. reflexivity. Qed.

Lemma readonly_run_events :
  events_since Scenario.paid_world
    (send_booking_confirmation_email Cases.readonly_env "B1" None Scenario.paid_world).2
  = [GetBooking "B1"; GetPayment "B1"; GetUserProfile (VStr "U1");
     Send (Some "re_test_key") Cases.confirmation_B1 None;
     UpdatePaymentStatus "B1" (VStr "completed") (VStr "tx_1") (VStr "email_sent")
       (Some (Exn (ExternalError "APIError") "permission denied"));
     Print "Warning: could not mark confirmation email as sent (B1): permission denied"].
Proof. vm_compute. reflexivity. Qed.

(** X6: when the update of the payment raises, the exception is caught:
    the run returns normally, the email has gone out, no row has changed,
    and the last thing done is to print the warning with the exception's
    text. *)
Theorem update_failure_is_logged_and_swallowed E id fb w r w' id' st tx url e :
  send_booking_confirmation_email E id fb w = (r, w') ->
  In (UpdatePaymentStatus id' st tx url (Some e)) (events_since w w') ->
  r = Ok tt
  /\ id' = id
  /\ same_store w w'
  /\ count is_delivery (events_since w w') = 1%nat
  /\ last (events_since w w')
     = Some (Print ("Warning: could not mark confirmation email as sent ("
                    +:+ id +:+ "): " +:+ exn_msg e)).
Proof.
  intros Hrun Hin. run_cases Hrun; find_event Hin.
  injection Hin as <- _ _ _ <-. repeat split; done.
Qed.

Lemma update_failure_is_logged_and_swallowed_witness :
  (send_booking_confirmation_email Cases.readonly_env "B1" None Scenario.paid_world).1
  = Ok tt
  /\ last (events_since Scenario.paid_world
             (send_booking_confirmation_email Cases.readonly_env "B1" None
                Scenario.paid_world).2)
     = Some (Print "Warning: could not mark confirmation email as sent (B1): permission denied").
Proof.
  assert (Hin : In (UpdatePaymentStatus "B1" (VStr "completed") (VStr "tx_1")
                      (VStr "email_sent")
                      (Some (Exn (ExternalError "APIError") "permission denied")))
                  (events_since Scenario.paid_world
                     (send_booking_confirmation_email Cases.readonly_env "B1" None
                        Scenario.paid_world).2)).
  { rewrite readonly_run_events. right; right; right; right; left; reflexivity. }
  destruct (update_failure_is_logged_and_swallowed Cases.readonly_env "B1" None
              Scenario.paid_world _ _ _ _ _ _ _ (surjective_pairing _) Hin)
    as (Hr & _ & _ & _ & Hl).
  split; [exact Hr | exact Hl].
Defined.

(** X7: the workflow writes nothing but the payment row of its own
    booking: bookings and profiles stay as they are, so does every other
    payment row, no payment row appears or disappears, and the record of
    what happened only grows. *)
Theorem only_its_own_payment_row_changes E id fb w :
  let w' := (send_booking_confirmation_email E id fb w).2 in
  bookings w' = bookings w
  /\ profiles w' = profiles w
  /\ (forall other, other <> id -> payments w' !! other = payments w !! other)
  /\ (is_Some (payments w' !! id) <-> is_Some (payments w !! id))
  /\ exists evs, history w' = (history w ++ evs)%list.
Proof.
  destruct (send_booking_confirmation_email E id fb w) as [r w'] eqn:Hrun.
  cbn [snd]. run_cases Hrun;
    try (repeat split; try done; by eexists).
  unfold extend, Supabase.set_payment; cbn [bookings profiles payments history].
  match goal with H : payments w !! id = Some _ |- _ => rewrite H end.
  split; [done|]. split; [done|]. split; [|split].
  - intros other Hne. by rewrite lookup_insert_ne.
  - rewrite lookup_insert_eq. split; intros _; by eexists.
  - by eexists.
Qed.

(** X8: the one address a request goes to is the profile's email when the
    profile has a non-empty one, and the caller's fallback address
    otherwise. *)
Theorem recipient_is_profile_email_else_fallback E id fb w r w' b prof key req raised :
  send_booking_confirmation_email E id fb w = (r, w') ->
  bookings w !! id = Some b ->
  profile_of w b = VDict prof ->
  In (Send key req raised) (events_since w w') ->
  to req = [if Py.truthy (Py.item prof "email" VNone)
            then Py.item prof "email" VNone
            else of_optional fb].
Proof.
  intros Hrun Hb Hprof Hin.
  assert (Hrec : recipient_of fb w b
                 = if Py.truthy (Py.item prof "email" VNone)
                   then Py.item prof "email" VNone else of_optional fb).
  { unfold recipient_of. rewrite Hprof. unfold Py.or at 2.
    destruct (Py.truthy (VDict prof)) eqn:Hp; [done|].
    cbn in Hp. apply negb_false_iff, bool_decide_eq_true in Hp. subst prof.
    reflexivity. }
  run_cases Hrun; find_event Hin;
    injection Hin as _ <- _;
    match goal with Hb' : bookings w !! id = Some ?b' |- _ =>
      assert (b' = b) as -> by congruence end;
    subst req0; cbn [to request]; by rewrite Hrec.
Qed.

Lemma recipient_is_profile_email_else_fallback_witness :
  exists key req,
    In (Send key req None)
      (events_since Scenario.unpaid_world
         (send_booking_confirmation_email Scenario.demo_env "B1" (Some "guest@x.com")
            Scenario.unpaid_world).2)
    /\ to req = [VStr "a@x.com"].
Proof.
  assert (Hin : In (Send (Some "re_test_key") Cases.confirmation_B1 None)
                  (events_since Scenario.unpaid_world
                     (send_booking_confirmation_email Scenario.demo_env "B1"
                        (Some "guest@x.com") Scenario.unpaid_world).2))
    by (vm_compute; right; right; right; left; reflexivity).
  assert (Hb : bookings Scenario.unpaid_world !! "B1" = Some Scenario.booking_B1)
    by reflexivity.
  assert (Hprof : profile_of Scenario.unpaid_world Scenario.booking_B1
                  = VDict Scenario.profile_ann) by (vm_compute; reflexivity).
  exists (Some "re_test_key"), Cases.confirmation_B1. split; [exact Hin|].
  rewrite (recipient_is_profile_email_else_fallback _ _ _ _ _ _ _ _ _ _ _
             (surjective_pairing _) Hb Hprof Hin).
  vm_compute. reflexivity.
Defined.

Lemma email_content_subject E booking profile subject body pdf :
  email_content E booking profile = Ok (subject, body, pdf) ->
  Str.startswith "Booking confirmed: " subject = true.
Proof.
  unfold email_content, rbind. intros H. all_ok H.
  injection H as <- _ _.
  match goal with
  | Hs : subject_line _ _ _ = Ok _ |- _ =>
      unfold subject_line, rbind in Hs; all_ok Hs; by injection Hs as <-
  end.
Qed.

Lemma request_attachments E id to_email subject body pdf atts :
  attachments (request E id to_email subject body pdf) = Some atts ->
  exists bytes,
    pdf = Some bytes /\ bytes <> ""
    /\ atts = [ {| filename := "booking-" +:+ id +:+ ".pdf";
                   content := Base64.b64encode bytes;
                   encoding := "base64" |} ].
Proof.
  unfold request; cbn [attachments]. destruct pdf as [bytes|]; [|discriminate].
  destruct (String.eqb bytes "") eqn:Hb; [discriminate|].
  intros H. injection H as <-. exists bytes. apply String.eqb_neq in Hb. done.
Qed.

(** X9: every request handed to the provider is made under the configured
    key, comes from the configured sender, both non-empty, goes to one
    address, has a subject that starts with "Booking confirmed: ", and its
    attachments are either absent or the one file "booking-<id>.pdf", the
    base64 text of a non-empty document. *)
Theorem every_request_is_well_formed E id fb w r w' key req raised :
  send_booking_confirmation_email E id fb w = (r, w') ->
  In (Send key req raised) (events_since w w') ->
  key = RESEND_API_KEY (get_settings E) /\ is_set key = true
  /\ from req = RESEND_FROM (get_settings E) /\ is_set (from req) = true
  /\ length (to req) = 1%nat
  /\ Str.startswith "Booking confirmed: " (subject req) = true
  /\ (forall atts, attachments req = Some atts ->
      exists bytes,
        bytes <> ""
        /\ atts = [ {| filename := "booking-" +:+ id +:+ ".pdf";
                       content := Base64.b64encode bytes;
                       encoding := "base64" |} ]).
Proof.
  intros Hrun Hin.
  run_cases Hrun; find_event Hin; injection Hin as <- <- _;
    match goal with Hc : configured E = true |- _ =>
      unfold configured in Hc; apply andb_prop in Hc as [Hc _];
      apply andb_prop in Hc as [Hkey Hfrom] end;
    match goal with Hc : email_content _ _ _ = Ok _ |- _ =>
      apply email_content_subject in Hc end;
    (split; [done|]); (split; [done|]); (split; [done|]); (split; [done|]);
    (split; [done|]); (split; [done|]);
    intros atts Hatts; apply request_attachments in Hatts as (bytes & _ & ? & ?);
    by exists bytes.
Qed.

Lemma every_request_is_well_formed_witness :
  exists key req,
    In (Send key req None)
      (events_since Scenario.unpaid_world
         (send_booking_confirmation_email Scenario.demo_env "B1" None
            Scenario.unpaid_world).2)
    /\ key = Some "re_test_key"
    /\ from req = Some "bookings@infinity8.example"
    /\ Str.startswith "Booking confirmed: " (subject req) = true
    /\ exists atts, attachments req = Some atts /\ length atts = 1%nat.
Proof.
  assert (Hin : In (Send (Some "re_test_key") Cases.confirmation_B1 None)
                  (events_since Scenario.unpaid_world
                     (send_booking_confirmation_email Scenario.demo_env "B1" None
                        Scenario.unpaid_world).2)).
  { rewrite unpaid_run_events. right; right; right; left; reflexivity. }
  destruct (every_request_is_well_formed Scenario.demo_env "B1" None Scenario.unpaid_world
              _ _ _ _ _ (surjective_pairing _) Hin)
    as (Hkey & _ & Hfrom & _ & _ & Hsubj & Hatts).
  exists (Some "re_test_key"), Cases.confirmation_B1.
  split; [exact Hin|]. split; [exact Hkey|]. split; [exact Hfrom|]. split; [exact Hsubj|].
  destruct (Hatts _ eq_refl) as (bytes & _ & Heq).
  eexists. split; [reflexivity|]. reflexivity.
Defined.

Lemma item_insert (d : dict) k v default : Py.item (<[k := v]> d) k default = v.
Proof. unfold Py.item. by rewrite lookup_insert_eq. Qed.

Lemma receipt_url_kept_by_a_run E id fb w p :
  payments w !! id = Some p ->
  Py.truthy (Py.item p "receipt_url" VNone) = true ->
  Py.eq_str (Py.item p "receipt_url" VNone) "email_sent" = false ->
  exists p', payments (send_booking_confirmation_email E id fb w).2 !! id = Some p'
             /\ Py.item p' "receipt_url" VNone = Py.item p "receipt_url" VNone.
Proof.
  intros Hp Ht Hne.
  destruct (send_booking_confirmation_email E id fb w) as [r w'] eqn:Hrun.
  cbn [snd]. run_cases Hrun; try by exists p.
  match goal with Hp' : payments w !! id = Some ?q |- _ =>
    assert (q = p) as -> by congruence end.
  assert (Hm : mark_receipt p = Py.item p "receipt_url" VNone)
    by (unfold mark_receipt, Py.or; by rewrite Ht).
  unfold extend, Supabase.set_payment; cbn [payments].
  rewrite Hp, lookup_insert_eq, Hm.
  eexists. split; [done|]. apply item_insert.
Qed.

(** X10: a payment row that holds a receipt URL of its own keeps it,
    however many invocations follow one another: the row has the same
    receipt_url afterwards, and so the idempotency check never finds a
    mark, whether or not the emails went out. *)
Theorem existing_receipt_url_is_never_overwritten E id fbs w p :
  payments w !! id = Some p ->
  Py.truthy (Py.item p "receipt_url" VNone) = true ->
  Py.eq_str (Py.item p "receipt_url" VNone) "email_sent" = false ->
  let w' := invoke_all E id fbs w in
  already_sent id w' = false
  /\ exists p', payments w' !! id = Some p'
                /\ Py.item p' "receipt_url" VNone = Py.item p "receipt_url" VNone.
Proof.
  cbv zeta. revert w p. induction fbs as [|fb fbs IH]; intros w p Hp Ht Hne; cbn [invoke_all].
  - split; [|by exists p]. unfold already_sent. rewrite Hp, Hne. apply andb_false_r.
  - destruct (receipt_url_kept_by_a_run E id fb w p Hp Ht Hne) as (p1 & Hp1 & Heq).
    rewrite <- Heq in Ht, Hne.
    destruct (IH _ p1 Hp1 Ht Hne) as (Ha & p' & Hp' & Heq').
    split; [done|]. exists p'. split; [done|]. congruence.
Qed.

Lemma existing_receipt_url_is_never_overwritten_witness :
  already_sent "B1" (invoke_all Scenario.demo_env "B1" [None; None] Scenario.receipt_world)
  = false
  /\ count is_delivery
       (events_since Scenario.receipt_world
          (invoke_all Scenario.demo_env "B1" [None; None] Scenario.receipt_world)) = 2%nat.
Proof.
  split; [|vm_compute; reflexivity].
  assert (Hp : payments Scenario.receipt_world !! "B1" = Some Scenario.payment_with_receipt)
    by reflexivity.
  assert (Ht : Py.truthy (Py.item Scenario.payment_with_receipt "receipt_url" VNone) = true)
    by (vm_compute; reflexivity).
  assert (Hne : Py.eq_str (Py.item Scenario.payment_with_receipt "receipt_url" VNone)
                  "email_sent" = false) by (vm_compute; reflexivity).
  exact (proj1 (existing_receipt_url_is_never_overwritten Scenario.demo_env "B1" [None; None]
                  Scenario.receipt_world _ Hp Ht Hne)).
Defined.

(** X11: the provider is called only after the booking, its payment and
    the owner's profile were looked up, once each and in this order, and
    is not called again; after a call that raised no payment is updated. *)
Theorem dispatch_follows_the_three_lookups E id fb w r w' key req raised :
  send_booking_confirmation_email E id fb w = (r, w') ->
  In (Send key req raised) (events_since w w') ->
  exists b rest,
    bookings w !! id = Some b
    /\ events_since w w'
       = ([GetBooking id; GetPayment id; GetUserProfile (user_id_of b);
           Send key req raised] ++ rest)%list
    /\ count is_send rest = 0%nat
    /\ (raised <> None -> count is_update rest = 0%nat).
Proof.
  intros Hrun Hin. run_cases Hrun; find_event Hin; injection Hin as <- <- <-;
    eexists _, _; (split; [eassumption|]); (split; [reflexivity|]); by split.
Qed.

Lemma dispatch_follows_the_three_lookups_witness :
  exists key req rest,
    events_since Scenario.paid_world
      (send_booking_confirmation_email Scenario.demo_env "B1" None Scenario.paid_world).2
    = ([GetBooking "B1"; GetPayment "B1"; GetUserProfile (VStr "U1");
        Send key req None] ++ rest)%list
    /\ count is_send rest = 0%nat.
Proof.
  assert (Hin : In (Send (Some "re_test_key") Cases.confirmation_B1 None)
                  (events_since Scenario.paid_world
                     (send_booking_confirmation_email Scenario.demo_env "B1" None
                        Scenario.paid_world).2)).
  { rewrite paid_run_events. right; right; right; left; reflexivity. }
  destruct (dispatch_follows_the_three_lookups Scenario.demo_env "B1" None Scenario.paid_world
              _ _ _ _ _ (surjective_pairing _) Hin) as (b & rest & Hb & Hev & Hs & _).
  assert (Hb' : bookings Scenario.paid_world !! "B1" = Some Scenario.booking_B1) by reflexivity.
  rewrite Hb' in Hb. injection Hb as <-.
  exists (Some "re_test_key"), Cases.confirmation_B1, rest. split; [exact Hev | exact Hs].
Defined.

(** X12: in a configured deployment a booking that the store does not have,
    or has as an empty row, is looked up, reported as not found, and
    nothing else happens: no payment or profile is read. *)
Theorem missing_booking_is_a_logged_no_op E id fb w :
  configured E = true ->
  bookings w !! id = None \/ bookings w !! id = Some ∅ ->
  send_booking_confirmation_email E id fb w
  = (Ok tt,
     extend w [GetBooking id;
               Print ("Booking " +:+ id +:+ " not found; cannot send confirmation email.")]).
Proof.
  intros Hc Hb.
  assert (Hf : Py.truthy (Supabase.row (bookings w !! id)) = false).
  { destruct Hb as [-> | ->]; [done|]. cbn. by rewrite bool_decide_eq_true_2. }
  unfold configured in Hc. apply andb_prop in Hc as [Hc Hav].
  apply andb_prop in Hc as [Hkey Hfrom].
  unfold send_booking_confirmation_email. rewrite Hkey, Hfrom, Hav. cbn [negb orb].
  rewrite bind_get_booking_by_id, Hf. cbn [negb]. by rewrite print_run, extend_extend.
Qed.

Lemma missing_booking_is_a_logged_no_op_witness :
  send_booking_confirmation_email Scenario.demo_env "B7" None Scenario.unpaid_world
  = (Ok tt,
     extend Scenario.unpaid_world
       [GetBooking "B7"; Print "Booking B7 not found; cannot send confirmation email."]).
Proof.
  apply (missing_booking_is_a_logged_no_op Scenario.demo_env "B7" None Scenario.unpaid_world).
  - reflexivity.
  - left. reflexivity.
Defined.

(** ** When the workflow does not raise *)




(** ** The HTML body is one line *)

Module LineFacts.
Import Str.

(** One step of [splitlines]: a boundary is dropped, or a character kept. *)
Lemma splitlines_step c s1 :
  (exists rest, (String.length rest <= String.length s1)%nat
                /\ splitlines (String c s1) = "" :: splitlines rest
                /\ is_break1 c || wide_break c s1 = true)
  \/ (splitlines (String c s1) = cons_char c (splitlines s1)
      /\ is_break1 c = false /\ wide_break c s1 = false).
Proof.
  destruct s1 as [|d s2]; cbn [splitlines wide_break].
  { destruct (is_break1 c); [left; by exists ""|by right]. }
  destruct (is_crlf c d);
    [left; exists s2; cbn; split; [lia|split; [done|apply orb_true_r]]|].
  destruct (is_nel c d);
    [left; exists s2; cbn; split; [lia|split; [done|apply orb_true_r]]|].
  cbn [orb]. destruct s2 as [|e s3].
  { destruct (is_break1 c); [left; by exists (String d "")|by right]. }
  destruct (is_ls_ps c d e);
    [left; exists s3; cbn; split; [lia|split; [done|apply orb_true_r]]|].
  destruct (is_break1 c); [left; by exists (String d (String e s3))|by right].
Qed.

Lemma join_after_boundary sep ls :
  join sep ("" :: ls) = match ls with [] => "" | _ => sep +:+ join sep ls end.
Proof. by destruct ls. Qed.

(** No boundary of more than one byte has ["<"] as its second byte. *)
Lemma wide_break_br c t : wide_break c (String "<" t) = false.
Proof.
  unfold wide_break, is_crlf, is_nel, is_ls_ps.
  change (ord "<") with 60%N. cbn [N.eqb Pos.eqb]. rewrite !andb_false_r.
  destruct t; [done|]. by rewrite ?andb_false_r.
Qed.

Lemma has_line_boundary_br t : has_line_boundary ("<br>" +:+ t) = has_line_boundary t.
Proof.
  change ("<br>" +:+ t) with (String "<" (String "b" (String "r" (String ">" t)))).
  cbn [has_line_boundary].
  change (is_break1 "<") with false. change (is_break1 "b") with false.
  change (is_break1 "r") with false. change (is_break1 ">") with false.
  cbn [orb].
  assert (Hw : forall c u, (ord c =? 13)%N = false -> (ord c =? 194)%N = false ->
                 (ord c =? 226)%N = false -> wide_break c u = false).
  { intros c u H1 H2 H3. unfold wide_break, is_crlf, is_nel, is_ls_ps.
    rewrite H1, H2, H3. by destruct u as [|d [|e u]]. }
  rewrite !Hw by reflexivity. reflexivity.
Qed.

(** The joined lines are empty, or start with the ["<"] of a separator, or
    start with a character of the text at which no boundary starts. *)
Lemma join_splitlines_head s :
  join "<br>" (splitlines s) = ""
  \/ (exists t, join "<br>" (splitlines s) = String "<" t)
  \/ (exists d s2, s = String d s2
                   /\ join "<br>" (splitlines s) = String d (join "<br>" (splitlines s2))
                   /\ is_break1 d = false /\ wide_break d s2 = false).
Proof.
  destruct s as [|d s2]; [by left|].
  destruct (splitlines_step d s2) as [(rest & _ & -> & _) | (-> & Hb & Hw)].
  - rewrite join_after_boundary. destruct (splitlines rest); [by left|].
    right; left. by eexists.
  - right; right. exists d, s2. by rewrite StrFacts.join_cons_char.
Qed.

Lemma wide_break_joined c s1 :
  wide_break c s1 = false -> wide_break c (join "<br>" (splitlines s1)) = false.
Proof.
  intros Hw.
  destruct (join_splitlines_head s1) as [-> | [(t & ->) | (d & s2 & -> & -> & _ & _)]];
    [done | apply wide_break_br |].
  cbn [wide_break] in *.
  apply orb_false_elim in Hw as [Hw Hls]. rewrite Hw. cbn [orb].
  destruct (join_splitlines_head s2) as [-> | [(t & ->) | (e & s3 & -> & -> & _ & _)]];
    [done | | done].
  unfold is_ls_ps. change (ord "<") with 60%N. cbn [N.eqb Pos.eqb orb].
  by rewrite andb_false_r.
Qed.

Lemma joined_lines_have_no_boundary_below n s :
  (String.length s < n)%nat -> has_line_boundary (join "<br>" (splitlines s)) = false.
Proof.
  revert s. induction n as [|n IH]; intros s Hn; [lia|].
  destruct s as [|c s1]; [done|]. cbn [String.length] in Hn.
  destruct (splitlines_step c s1) as [(rest & Hlen & -> & _) | (-> & Hb & Hw)].
  - rewrite join_after_boundary. destruct (splitlines rest) eqn:Hrest; [done|].
    rewrite has_line_boundary_br, <- Hrest. apply IH. lia.
  - rewrite StrFacts.join_cons_char. cbn [has_line_boundary].
    rewrite Hb, (wide_break_joined _ _ Hw). cbn [orb]. apply IH. lia.
Qed.

Lemma joined_lines_have_no_boundary s :
  has_line_boundary (join "<br>" (splitlines s)) = false.
Proof. apply (joined_lines_have_no_boundary_below (S (String.length s))). lia. Qed.

(** A text without boundary is one line, or none when it is empty. *)
Lemma splitlines_one_line s :
  has_line_boundary s = false ->
  splitlines s = match s with EmptyString => [] | _ => [s] end.
Proof.
  induction s as [|c s1 IH]; [done|]. cbn [has_line_boundary]. intros H.
  apply orb_false_elim in H as [H Hs1].
  destruct (splitlines_step c s1) as [(rest & _ & _ & Hbr) | (-> & _ & _)]; [congruence|].
  rewrite (IH Hs1). by destruct s1.
Qed.

End LineFacts.

(** X14: the HTML body of every request is a single line: whatever line
    boundaries the text has (LF, CR, CR LF, VT, FF, FS, GS, RS, NEL, LS,
    PS), none is left in the HTML, and splitting the HTML into lines gives
    it back whole. *)
Theorem html_body_is_one_line E id fb w r w' key req raised :
  send_booking_confirmation_email E id fb w = (r, w') ->
  In (Send key req raised) (events_since w w') ->
  has_line_boundary (html req) = false
  /\ Str.splitlines (html req)
     = match html req with EmptyString => [] | _ => [html req] end.
Proof.
  intros Hrun Hin.
  assert (Hhtml : html req = Str.join "<br>" (Str.splitlines (text req))).
  { run_cases Hrun; find_event Hin; by injection Hin as _ <- _. }
  rewrite Hhtml.
  pose proof (LineFacts.joined_lines_have_no_boundary (text req)) as Hone.
  split; [done|]. by apply LineFacts.splitlines_one_line.
Qed.

Lemma html_body_is_one_line_witness :
  exists key req,
    In (Send key req None)
      (events_since Scenario.unpaid_world
         (send_booking_confirmation_email Scenario.demo_env "B1" None
            Scenario.unpaid_world).2)
    /\ length (Str.splitlines (text req)) = 13%nat
    /\ has_line_boundary (html req) = false.
Proof.
  assert (Hin : In (Send (Some "re_test_key") Cases.confirmation_B1 None)
                  (events_since Scenario.unpaid_world
                     (send_booking_confirmation_email Scenario.demo_env "B1" None
                        Scenario.unpaid_world).2)).
  { rewrite unpaid_run_events. right; right; right; left; reflexivity. }
  exists (Some "re_test_key"), Cases.confirmation_B1.
  split; [exact Hin|]. split; [vm_compute; reflexivity|].
  exact (proj1 (html_body_is_one_line Scenario.demo_env "B1" None Scenario.unpaid_world
                  _ _ _ _ _ (surjective_pairing _) Hin)).
Defined.

(** ** The helpers on their own *)

Lemma fromisoformat_no_digit c s :
  Float.digit c = None -> DateTime.fromisoformat (String c s) = None.
Proof.
  intros H. unfold DateTime.fromisoformat, DateTime.parse_isoformat_date.
  cbn [DateTime.digits]. by rewrite H.
Qed.

Lemma replace_Z_head c s :
  Ascii.eqb "Z" c = false ->
  Str.replace "Z" "+00:00" (String c s) = String c (Str.replace "Z" "+00:00" s).
Proof.
  intros H. unfold Str.replace. cbn [Str.replace_from Str.startswith]. by rewrite H.
Qed.

(** A label starts with the name of a month, or with a space: not with a
    digit and not with "Z". *)
Lemma strftime_label_head dt :
  exists c rest,
    DateTime.strftime_label dt = String c rest
    /\ Float.digit c = None /\ Ascii.eqb "Z" c = false.
Proof.
  unfold DateTime.strftime_label, DateTime.month_name.
  generalize (Z.to_nat (month dt - 1)). intros n.
  do 12 (destruct n as [|n]; [by eexists _, _|]).
  destruct n; by eexists _, _.
Qed.

(** X15: [_format_datetime] is idempotent: a label it produced is not read
    as a date again, and a value it returned unchanged is returned
    unchanged again. *)
Theorem format_datetime_idempotent v :
  _format_datetime (_format_datetime v) = _format_datetime v.
Proof.
  destruct v as [| | | |s| |]; try reflexivity.
  unfold _format_datetime at 2 3.
  destruct (DateTime.fromisoformat (Str.replace "Z" "+00:00" s)) as [dt|] eqn:Hdt.
  - destruct (strftime_label_head dt) as (c & rest & -> & Hd & Hz).
    unfold _format_datetime. by rewrite (replace_Z_head _ _ Hz), (fromisoformat_no_digit _ _ Hd).
  - unfold _format_datetime. by rewrite Hdt.
Qed.

(** X16: [_build_booking_pdf] accepts [None] as the profile only where the
    PDF library is missing: there it returns [None]; with the library, the
    Guest line calls [get] on [None] and the AttributeError comes out,
    whatever the booking holds. *)
Theorem build_booking_pdf_needs_a_profile E (b : dict) :
  _build_booking_pdf E (VDict b) VNone
  = if PDF_ENABLED E
    then Raise (Exn AttributeError "'NoneType' object has no attribute 'get'")
    else Ok None.
Proof.
  unfold _build_booking_pdf. destruct (PDF_ENABLED E); reflexivity.
Qed.

Lemma events_since_same w : events_since w w = [].
Proof. unfold events_since. apply drop_all. Qed.

(** X17: [_send_email_with_attachment], called on its own: in a configured
    deployment it calls the provider exactly once, with the address,
    subject and text it was given, and raises what the provider raises;
    otherwise it raises a RuntimeError and does not call the provider.  It
    writes nothing to the store. *)
Theorem send_email_calls_provider_iff_configured E to_email subj body att name w :
  let run := _send_email_with_attachment E to_email subj body att name w in
  if configured E
  then exists req raised,
         events_since w run.2 = [Send (RESEND_API_KEY (get_settings E)) req raised]
         /\ same_store w run.2
         /\ to req = [to_email] /\ subject req = subj /\ text req = body
         /\ run.1 = match raised with Some e => Raise e | None => Ok tt end
  else same_store w run.2 /\ events_since w run.2 = []
       /\ exists msg, run.1 = Raise (Exn RuntimeError msg).
Proof.
  unfold configured, _send_email_with_attachment.
  destruct (is_set (RESEND_API_KEY (get_settings E)) && is_set (RESEND_FROM (get_settings E)));
    cbn [negb andb].
  2:{ cbn [lift fst snd]. rewrite events_since_same. repeat split. by eexists. }
  destruct (RESEND_AVAILABLE E); cbn [negb].
  2:{ cbn [lift fst snd]. rewrite events_since_same. repeat split. by eexists. }
  unfold resend_emails_send.
  match goal with |- context [resend_send E w ?k ?r] =>
    destruct (resend_send E w k r) as [e|] eqn:Hs end.
  - eexists _, (Some e). cbn [bind emit lift fst snd]. rewrite events_since_extend.
    repeat split.
  - eexists _, None. cbn [emit fst snd]. rewrite events_since_extend. repeat split.
Qed.



(** ** The body and the document *)

Lemma email_content_parts E (b : dict) profile subject body pdf :
  email_content E (VDict b) profile = Ok (subject, body, pdf) ->
  exists lines,
    body_lines E (VDict b) profile (Py.or (Py.item b "spaces" VNone) (VDict ∅))
      (_format_datetime (Py.item b "start_time" (VStr ""))) = Ok lines
    /\ body = Str.join Str.LF lines
    /\ _build_booking_pdf E (VDict b) (Py.or profile (VDict ∅)) = Ok pdf.
Proof.
  unfold email_content. cbn [Py.get rbind]. unfold rbind. intros H. all_ok H.
  injection H as _ <- <-. by eexists.
Qed.

(** X19: the email and its attachment do not disagree: space, location,
    start, end, attendees and amount are the same six texts in lines 4 to
    9 of the body and in lines 4 to 9 of the summary that the document is
    drawn from. *)
Theorem body_and_pdf_show_the_same_details E (b : dict) profile subject body bytes :
  email_content E (VDict b) profile = Ok (subject, body, Some bytes) ->
  exists lines summary vals,
    body = Str.join Str.LF lines
    /\ fpdf_output E (booking_pdf summary) = Ok bytes
    /\ length vals = 6%nat
    /\ take 6 (drop 3 lines)
       = zip_with String.append
           ["- Space: "; "- Location: "; "- Starts: "; "- Ends: "; "- Attendees: ";
            "- Amount: "] vals
    /\ take 6 (drop 3 summary)
       = zip_with String.append
           ["Space: "; "Location: "; "Date: "; "End: "; "Attendees: "; "Total Paid: "] vals.
Proof.
  intros H. apply email_content_parts in H as (lines & Hl & -> & Hpdf).
  unfold _build_booking_pdf in Hpdf. destruct (PDF_ENABLED E); [|discriminate Hpdf].
  cbn [negb Py.get rbind] in Hpdf. unfold rbind in Hpdf. all_ok Hpdf.
  injection Hpdf as <-.
  match goal with Hs : summary_lines _ _ _ _ = Ok ?l |- _ =>
    exists lines, l; unfold summary_lines in Hs; cbn [Py.get rbind] in Hs;
    unfold rbind in Hs; all_ok Hs; injection Hs as <- end.
  unfold body_lines in Hl. cbn [Py.get rbind] in Hl. unfold rbind in Hl. all_ok Hl.
  injection Hl as <-.
  eexists [_; _; _; _; _; _].
  split; [done|]. split; [done|]. split; [done|].
  cbn [take drop zip_with].
  repeat match goal with Heq : Ok _ = Ok _ |- _ => injection Heq as <- end.
  split; reflexivity.
Qed.

Lemma body_and_pdf_show_the_same_details_witness :
  exists lines summary vals,
    fpdf_output Scenario.demo_env (booking_pdf summary) = Ok "%PDF-1.3"
    /\ text Cases.confirmation_B1 = Str.join Str.LF lines
    /\ length vals = 6%nat
    /\ take 6 (drop 3 lines)
       = zip_with String.append
           ["- Space: "; "- Location: "; "- Starts: "; "- Ends: "; "- Attendees: ";
            "- Amount: "] vals
    /\ take 6 (drop 3 summary)
       = zip_with String.append
           ["Space: "; "Location: "; "Date: "; "End: "; "Attendees: "; "Total Paid: "] vals.
Proof.
  assert (H : email_content Scenario.demo_env (VDict Scenario.booking_B1)
                (VDict Scenario.profile_ann)
              = Ok (subject Cases.confirmation_B1, text Cases.confirmation_B1,
                    Some "%PDF-1.3"))
    by (vm_compute; reflexivity).
  destruct (body_and_pdf_show_the_same_details _ _ _ _ _ _ H)
    as (lines & summary & vals & Hbody & Hpdf & Hlen & Hl & Hs).
  exists lines, summary, vals. repeat split; assumption.
Defined.

(** ** What a log line tells *)

(** X20: in a configured deployment every line the workflow prints names
    what happened: the booking was not found, or no address was available,
    or the provider call raised the exception whose text the line ends
    with, or the update of the payment did. *)
Theorem every_log_line_has_its_cause E id fb w r w' msg :
  configured E = true ->
  send_booking_confirmation_email E id fb w = (r, w') ->
  In (Print msg) (events_since w w') ->
  (msg = "Booking " +:+ id +:+ " not found; cannot send confirmation email."
   /\ Py.truthy (Supabase.row (bookings w !! id)) = false)
  \/ (msg = "No email available for booking " +:+ id +:+ "; skipping send."
      /\ exists b, bookings w !! id = Some b /\ Py.truthy (recipient_of fb w b) = false)
  \/ (exists key req e,
        msg = "Failed to send booking confirmation email for " +:+ id +:+ ": " +:+ exn_msg e
        /\ In (Send key req (Some e)) (events_since w w'))
  \/ (exists st tx url e,
        msg = "Warning: could not mark confirmation email as sent (" +:+ id +:+ "): "
              +:+ exn_msg e
        /\ In (UpdatePaymentStatus id st tx url (Some e)) (events_since w w')).
Proof.
  intros Hc Hrun Hin. run_cases Hrun; try congruence; find_event Hin;
    injection Hin as <-.
  - by left.
  - right; left. split; [done|]. by eexists.
  - right; right; left. eexists _, _, _. split; [done|].
    cbn [lookups app In]. right; right; right; left; reflexivity.
  - right; right; right. eexists _, _, _, _. split; [done|].
    cbn [lookups app In]. right; right; right; right; left; reflexivity.
Qed.

Lemma every_log_line_has_its_cause_witness :
  exists st tx url e,
    In (UpdatePaymentStatus "B1" st tx url (Some e))
      (events_since Scenario.paid_world
         (send_booking_confirmation_email Cases.readonly_env "B1" None Scenario.paid_world).2).
Proof.
  assert (Hin : In (Print "Warning: could not mark confirmation email as sent (B1): permission denied")
                  (events_since Scenario.paid_world
                     (send_booking_confirmation_email Cases.readonly_env "B1" None
                        Scenario.paid_world).2)).
  { rewrite readonly_run_events. do 5 right. left. reflexivity. }
  destruct (every_log_line_has_its_cause Cases.readonly_env "B1" None Scenario.paid_world
              _ _ _ eq_refl (surjective_pairing _) Hin)
    as [[Hm _] | [[Hm _] | [(key & req & e & Hm & _) | (st & tx & url & e & Hm & Hev)]]];
    try discriminate Hm.
  exists st, tx, url, e. exact Hev.
Defined.
